(** * App discovery and classification engine

    A shallow embedding of the core routines of the app store
    ([modules/app_utils.py] and the class [ColabAppStoreCore] of
    [scripts/app_store_core.py]): the heuristic classifier, the filesystem
    prober, the repository scanner and the category organizer.

    Python values are modelled as follows.
    - [str] is [string]; [str.lower] folds the ASCII letters only, which is
      what Python does on ASCII text.
    - [pathlib.Path] is the list of its components; [name], [parent],
      [suffix] and [stem] follow [pathlib.PurePath].
    - a [dict] iterated in order is an association list in insertion order;
      a [dict] used for lookup only is a [gmap].
    - an exception is the [Raise] outcome of the [result] monad, and
      [try ... except] is [catch]. *)

From Stdlib Require Import ZArith NArith List Bool Ascii String Lia.
From Stdlib Require Import Sorting.Sorted Sorting.Permutation.
From Stdlib Require Import DecimalString.
From stdpp Require Import gmap strings list fin_maps.

Local Open Scope string_scope.
Local Open Scope list_scope.

(** ** Python strings *)

Module PyStr.

(** [c.lower()] on one ASCII character. *)
Definition lower_char (c : ascii) : ascii :=
  let n := N_of_ascii c in
  if ((65 <=? n) && (n <=? 90))%N then ascii_of_N (n + 32) else c.

(** [s.lower()]. *)
Fixpoint lower (s : string) : string :=
  match s with
  | EmptyString => EmptyString
  | String c s' => String (lower_char c) (lower s')
  end.

(** [s.startswith(p)]. *)
Fixpoint startswith (p s : string) : bool :=
  match p, s with
  | EmptyString, _ => true
  | String _ _, EmptyString => false
  | String a p', String b s' => Ascii.eqb a b && startswith p' s'
  end.

(** [needle in hay]: [needle] occurs as a contiguous substring. *)
Fixpoint contains (needle hay : string) : bool :=
  startswith needle hay ||
  match hay with
  | EmptyString => false
  | String _ hay' => contains needle hay'
  end.

(** [s.rfind('.')], [None] standing for [-1]. *)
Fixpoint rfind_dot (s : string) : option nat :=
  match s with
  | EmptyString => None
  | String c s' =>
      match rfind_dot s' with
      | Some i => Some (S i)
      | None => if Ascii.eqb c "."%char then Some 0 else None
      end
  end.

(** [any(keyword in s for keyword in keywords)]. *)
Definition any_in (keywords : list string) (s : string) : bool :=
  existsb (fun keyword => contains keyword s) keywords.

End PyStr.

(** ** Paths *)

Module PyPath.

(** A path is the list of its components, outermost first. *)
Definition path := list string.

(** [p.name]: the final component, [''] when there is none. *)
Definition name (p : path) : string := List.last p "".

(** [p.parent]. *)
Definition parent (p : path) : path := List.removelast p.

(** [p / child]. *)
Definition join (p : path) (child : string) : path := p ++ [child].

(** The split point of [name] used by [suffix] and [stem]:
    [i = name.rfind('.')] when [0 < i < len(name) - 1]. *)
Definition split_point (nm : string) : option nat :=
  match PyStr.rfind_dot nm with
  | Some i =>
      if (0 <? i)%nat && (i <? String.length nm - 1)%nat then Some i else None
  | None => None
  end.

(** [p.suffix]. *)
Definition suffix (p : path) : string :=
  let nm := name p in
  match split_point nm with
  | Some i => String.substring i (String.length nm - i) nm
  | None => ""
  end.

(** [p.stem]. *)
Definition stem (p : path) : string :=
  let nm := name p in
  match split_point nm with
  | Some i => String.substring 0 i nm
  | None => nm
  end.

End PyPath.

Import PyPath.

(** ** Heuristic classifier *)

(** The table [app_indicators], in the order the dictionary literal lists
    its keys. *)
Definition app_indicators : list (string * list string) :=
  [ ("streamlit", ["streamlit"; "app.py"; "streamlit_app.py"]);
    ("gradio",    ["gradio"; "app.py"; "gradio_app.py"]);
    ("flask",     ["flask"; "app.py"; "main.py"; "wsgi.py"]);
    ("fastapi",   ["fastapi"; "main.py"; "app.py"]);
    ("jupyter",   [".ipynb"]);
    ("panel",     ["panel"; "app.py"; "panel_app.py"]);
    ("dash",      ["dash"; "app.py"; "index.py"]);
    ("plotly",    ["plotly"; "app.py"]);
    ("python",    ["main.py"; "run.py"; "app.py"]) ].

(** The test of the inner loop:
    [indicator in file_name or indicator == file_path.suffix]. *)
Definition indicator_hits (file_name sfx indicator : string) : bool :=
  PyStr.contains indicator file_name || String.eqb indicator sfx.

(** The two nested loops over a table, returning at the first hit. *)
Fixpoint first_hit (file_name sfx : string)
    (table : list (string * list string)) : option string :=
  match table with
  | [] => None
  | (app_type, indicators) :: rest =>
      if existsb (indicator_hits file_name sfx) indicators
      then Some app_type
      else first_hit file_name sfx rest
  end.

(** [detect_app_type(file_path)]; the two source files agree on it. *)
Definition detect_app_type (file_path : path) : string :=
  let file_name := PyStr.lower (name file_path) in
  match first_hit file_name (suffix file_path) app_indicators with
  | Some app_type => app_type
  | None => "unknown"
  end.

(** The indicators of the types listed before [app_type] in a table. *)
Fixpoint indicators_before (app_type : string)
    (table : list (string * list string)) : list string :=
  match table with
  | [] => []
  | (t, indicators) :: rest =>
      if String.eqb t app_type then []
      else indicators ++ indicators_before app_type rest
  end.

Definition web_dev_keywords : list string :=
  ["web"; "site"; "html"; "css"; "js"; "javascript"; "react"; "vue";
   "angular"; "flask"; "fastapi"; "django"].

Definition data_science_keywords : list string :=
  ["data"; "analytics"; "visualization"; "pandas"; "numpy"; "matplotlib";
   "seaborn"; "plotly"; "tableau"].

Definition ml_keywords : list string :=
  ["ml"; "machine"; "learning"; "train"; "model"; "tensorflow"; "pytorch";
   "sklearn"; "xgboost"; "lightgbm"].

Definition cv_keywords : list string :=
  ["cv"; "vision"; "image"; "video"; "object"; "detection"; "segmentation";
   "yolo"; "mask"; "rcnn"].

Definition nlp_keywords : list string :=
  ["nlp"; "text"; "language"; "sentence"; "word"; "token"; "bert"; "gpt";
   "transformer"; "spacy"].

Definition genai_keywords : list string :=
  ["genai"; "generative"; "ai"; "llm"; "diffusion"; "stable"; "midjourney";
   "dalle"; "chatgpt"].

(** The dictionary [type_to_category]. *)
Definition type_to_category : gmap string string :=
  list_to_map
    [ ("streamlit", "1-Web-Development");
      ("gradio",    "1-Web-Development");
      ("flask",     "1-Web-Development");
      ("fastapi",   "1-Web-Development");
      ("jupyter",   "2-Data-Science");
      ("panel",     "2-Data-Science");
      ("dash",      "2-Data-Science");
      ("plotly",    "2-Data-Science");
      ("python",    "3-Machine-Learning") ].

(** [determine_category(app_name, app_type)]; the two source files agree
    on it. *)
Definition determine_category (app_name app_type : string) : string :=
  let app_name_lower := PyStr.lower app_name in
  if PyStr.any_in web_dev_keywords app_name_lower then "1-Web-Development"
  else if PyStr.any_in data_science_keywords app_name_lower then "2-Data-Science"
  else if PyStr.any_in ml_keywords app_name_lower then "3-Machine-Learning"
  else if PyStr.any_in cv_keywords app_name_lower then "4-Computer-Vision"
  else if PyStr.any_in nlp_keywords app_name_lower
       then "5-Natural-Language-Processing"
  else if PyStr.any_in genai_keywords app_name_lower then "6-Generative-AI"
  else default "3-Machine-Learning" (type_to_category !! app_type).

(** The six category tags. *)
Definition category_tags : list string :=
  [ "1-Web-Development"; "2-Data-Science"; "3-Machine-Learning";
    "4-Computer-Vision"; "5-Natural-Language-Processing"; "6-Generative-AI" ].

(** The classification rule in the words of the specification: the keyword
    groups in their fixed order, each with its tag; the first group with a
    keyword in the lowercased name wins; otherwise the runtime-type table,
    otherwise the global default. *)
Definition keyword_groups : list (list string * string) :=
  [ (web_dev_keywords,      "1-Web-Development");
    (data_science_keywords, "2-Data-Science");
    (ml_keywords,           "3-Machine-Learning");
    (cv_keywords,           "4-Computer-Vision");
    (nlp_keywords,          "5-Natural-Language-Processing");
    (genai_keywords,        "6-Generative-AI") ].

Definition first_keyword_group (app_name_lower : string) : option string :=
  snd <$> List.find (fun g => PyStr.any_in (fst g) app_name_lower) keyword_groups.

Definition two_tier_category (app_name app_type : string) : string :=
  match first_keyword_group (PyStr.lower app_name) with
  | Some tag => tag
  | None =>
      match type_to_category !! app_type with
      | Some tag => tag
      | None => "3-Machine-Learning"
      end
  end.

(** ** Exceptions *)

(** The outcome of a Python expression: a value, or a raised exception
    (recorded by the name of its class). *)
Inductive result (A : Type) : Type :=
  | Ok (a : A)
  | Raise (e : string).
Arguments Ok {A} a.
Arguments Raise {A} e.

Definition bind {A B} (m : result A) (k : A -> result B) : result B :=
  match m with
  | Ok a => k a
  | Raise e => Raise e
  end.

(** [try: m  except: handler]. *)
Definition catch {A} (m : result A) (handler : string -> A) : A :=
  match m with
  | Ok a => a
  | Raise e => handler e
  end.

Notation "'let*' x ':=' m 'in' k" := (bind m (fun x => k))
  (at level 10, x name, m at level 100, k at level 200).

(** ** The filesystem, as the scanner and the prober observe it

    One field per call the code makes on a path.  [Path.is_file] swallows
    errors and answers [False]; the other three can raise.  [st_size] is a
    byte count, hence a natural number. *)
Record filesystem : Type := {
  fs_exists  : path -> result bool;        (* p.exists() *)
  fs_is_file : path -> bool;               (* p.is_file() *)
  fs_rglob   : path -> result (list path); (* p.rglob('*'), in its order *)
  fs_st_size : path -> result N            (* p.stat().st_size *)
}.

(** ** Filesystem prober *)

(** [any((folder_path / f).exists() for f in files)]: left to right,
    stopping at the first file that exists. *)
Fixpoint any_exists (fs : filesystem) (folder_path : path)
    (files : list string) : result bool :=
  match files with
  | [] => Ok false
  | f :: rest =>
      let* b := fs_exists fs (join folder_path f) in
      if b then Ok true else any_exists fs folder_path rest
  end.

Definition has_requirements_file (fs : filesystem) (folder_path : path)
    : result bool :=
  any_exists fs folder_path
    ["requirements.txt"; "environment.yml"; "pyproject.toml"; "setup.py"].

Definition has_readme_file (fs : filesystem) (folder_path : path)
    : result bool :=
  any_exists fs folder_path
    ["README.md"; "README.rst"; "README.txt"; "readme.md"].

(** [sum(f.stat().st_size for f in files if f.is_file())]. *)
Fixpoint sum_file_sizes (fs : filesystem) (files : list path) : result Z :=
  match files with
  | [] => Ok 0%Z
  | f :: rest =>
      if fs_is_file fs f then
        let* sz := fs_st_size fs f in
        let* total := sum_file_sizes fs rest in
        Ok (Z.of_N sz + total)%Z
      else sum_file_sizes fs rest
  end.

(** [get_folder_size(folder_path)]: the bare [except:] turns every
    exception into [0]. *)
Definition get_folder_size (fs : filesystem) (folder_path : path) : Z :=
  catch (let* files := fs_rglob fs folder_path in sum_file_sizes fs files)
        (fun _ => 0%Z).

(** *** [format_size]

    After [k] passes through the loop the float [size_bytes] holds the
    rational [num / den] with [den = 1024 ^ k].  Division by [1024.0] only
    changes the exponent of a binary float, so this is exact for every
    integer below [2 ^ 53]; beyond that the conversion of the integer to a
    float rounds, which the model does not follow. *)









(** ** Repository scanner *)

(** The dictionary built for one candidate file. *)
Record app_info : Type := {
  ai_name : string;             (* 'name' *)
  ai_path : path;               (* 'path' *)
  ai_file_path : path;          (* 'file_path' *)
  ai_type : string;             (* 'type' *)
  ai_category : string;         (* 'category' *)
  ai_size : Z;                  (* 'size' *)
  ai_has_requirements : bool;   (* 'has_requirements' *)
  ai_has_readme : bool          (* 'has_readme' *)
}.

(** The rest of the [try] body of the two record constructors, which is
    the same in both, once [app_name] has been chosen.  The two presence
    checks call [exists], which can raise; the folder size cannot. *)
Definition build_app_info (fs : filesystem) (app_name : string)
    (file_path : path) : result app_info :=
  let app_type := detect_app_type file_path in
  let category := determine_category app_name app_type in
  let folder_size := get_folder_size fs (parent file_path) in
  let* req := has_requirements_file fs (parent file_path) in
  let* readme := has_readme_file fs (parent file_path) in
  Ok {| ai_name := app_name;
        ai_path := parent file_path;
        ai_file_path := file_path;
        ai_type := app_type;
        ai_category := category;
        ai_size := folder_size;
        ai_has_requirements := req;
        ai_has_readme := readme |}.

(** [sorted(apps, key=lambda x: x['name'])]: a stable sort on the name
    under the order of Python strings.  A stable sort is determined by its
    input, so insertion before the first element that is not smaller
    computes the list Python returns. *)
Fixpoint insert_by_name (a : app_info) (l : list app_info) : list app_info :=
  match l with
  | [] => [a]
  | b :: l' =>
      if String.leb (ai_name a) (ai_name b) then a :: b :: l'
      else b :: insert_by_name a l'
  end.

Fixpoint sorted_by_name (apps : list app_info) : list app_info :=
  match apps with
  | [] => []
  | a :: rest => insert_by_name a (sorted_by_name rest)
  end.

(** [file_path.suffix in ['.py', '.ipynb']]. *)
Definition is_candidate_suffix (sfx : string) : bool :=
  String.eqb sfx ".py" || String.eqb sfx ".ipynb".

(** The [for file_path in ...rglob("*")] loop, given the record
    constructor. *)
Fixpoint collect_apps (fs : filesystem) (create : path -> option app_info)
    (files : list path) : list app_info :=
  match files with
  | [] => []
  | file_path :: rest =>
      if fs_is_file fs file_path && is_candidate_suffix (suffix file_path)
      then match create file_path with
           | Some app => app :: collect_apps fs create rest
           | None => collect_apps fs create rest
           end
      else collect_apps fs create rest
  end.

(** [scripts/app_store_core.py], class [ColabAppStoreCore]. *)
Module ColabAppStoreCore.

(** [self.create_app_info(file_path)]. *)
Definition create_app_info (fs : filesystem) (repo_path file_path : path)
    : option app_info :=
  let app_name := stem file_path in
  let app_name :=
    if negb (String.eqb (name (parent file_path)) (name repo_path))
    then name (parent file_path) else app_name in
  match build_app_info fs app_name file_path with
  | Ok app => Some app        (* return app_info *)
  | Raise _ => None           (* except Exception: return None *)
  end.

(** [self.scan_repository_for_apps()]. *)
Definition scan_repository_for_apps (fs : filesystem) (repo_path : path)
    : result (list app_info) :=
  let* here := fs_exists fs repo_path in
  if negb here then Ok []
  else
    let* files := fs_rglob fs repo_path in
    Ok (sorted_by_name (collect_apps fs (create_app_info fs repo_path) files)).

End ColabAppStoreCore.

(** [modules/app_utils.py]. *)
Module AppUtils.

(** [create_app_info_from_file(file_path)].  The guard compares
    [file_path.parent.name] with itself. *)
Definition create_app_info_from_file (fs : filesystem) (file_path : path)
    : option app_info :=
  let app_name := stem file_path in
  let app_name :=
    if negb (String.eqb (name (parent file_path)) (name (parent file_path)))
    then name (parent file_path) else app_name in
  match build_app_info fs app_name file_path with
  | Ok app => Some app        (* return app_info *)
  | Raise _ => None           (* except Exception: return None *)
  end.

(** [scan_repository_for_apps(repo_path)]. *)
Definition scan_repository_for_apps (fs : filesystem) (repo_path : path)
    : result (list app_info) :=
  let* here := fs_exists fs repo_path in
  if negb here then Ok []
  else
    let* files := fs_rglob fs repo_path in
    Ok (sorted_by_name (collect_apps fs (create_app_info_from_file fs) files)).

End AppUtils.

(** ** Category organizer

    The organizer writes below [base_path].  What is there is a map from
    the name of a category directory to the entries of that directory; a
    category without a binding has no directory yet.  Application names
    are single path components, so [base_path / category / app_name] is
    the entry [app_name] of the directory [category]. *)

Inductive entry : Type :=
  | Symlink (target : path)             (* a symbolic link to [target] *)
  | Tree (source : path) (whole : bool) (* a real directory copied from
                                           [source], wholly or in part *)
  | RegularFile.                        (* anything that is not a directory *)

(** How [shutil.copytree] fares on a source directory. *)
Inductive copy_outcome : Type :=
  | CopyDone      (* every file copied *)
  | CopyPartial   (* destination created, some file failed: raises at the end *)
  | CopyRefused.  (* the source cannot be listed: raises before creating *)

(** What the organizer cannot change, and what stays the same from one
    run to the next: the source tree and the rights of the process. *)
Record environment : Type := {
  env_exists : path -> bool;            (* the path exists in the source tree *)
  env_symlink_permitted : bool;         (* the OS lets the process create links *)
  env_copy : path -> copy_outcome
}.

Inductive log_line : Type :=
  | ErrorCreatingSymlink (e : string)
  | ErrorCopying (app_name : string) (copy_error : string)
  | ErrorCopyingFolder (copy_error : string)
  | FailedToOrganize (app_name : string)
  | ErrorOrganizing (e : string).

Record world : Type := {
  disk : gmap string (gmap string entry);
  errors : list log_line                (* what [logger.error] received *)
}.

(** Effects on the world survive a raised exception. *)
Definition io (A : Type) : Type := world -> result A * world.

Definition io_ret {A} (a : A) : io A := fun w => (Ok a, w).

Definition io_bind {A B} (m : io A) (k : A -> io B) : io B :=
  fun w =>
    match m w with
    | (Ok a, w') => k a w'
    | (Raise e, w') => (Raise e, w')
    end.

(** [try: m  except Exception as e: handler e]. *)
Definition io_try {A} (m : io A) (handler : string -> io A) : io A :=
  fun w =>
    match m w with
    | (Ok a, w') => (Ok a, w')
    | (Raise e, w') => handler e w'
    end.

Notation "'let+' x ':=' m 'in' k" := (io_bind m (fun x => k))
  (at level 10, x name, m at level 100, k at level 200).

Definition logger_error (line : log_line) : io unit :=
  fun w => (Ok tt, {| disk := disk w; errors := errors w ++ [line] |}).

Definition set_disk (d : gmap string (gmap string entry)) (w : world) : world :=
  {| disk := d; errors := errors w |}.

Definition lookup_entry (d : gmap string (gmap string entry))
    (category app_name : string) : option entry :=
  match d !! category with
  | Some dir => dir !! app_name
  | None => None
  end.

(** [Path.exists()] on the target: a symbolic link is followed. *)
Definition target_exists (env : environment) (category app_name : string)
    : io bool :=
  fun w =>
    (Ok match lookup_entry (disk w) category app_name with
        | Some (Symlink target) => env_exists env target
        | Some _ => true
        | None => false
        end, w).

(** [shutil.rmtree] on the target: it removes a real directory and refuses
    everything else, a symbolic link to a directory included. *)
Definition rmtree (category app_name : string) : io unit :=
  fun w =>
    match lookup_entry (disk w) category app_name with
    | Some (Tree _ _) =>
        (Ok tt, set_disk (alter (delete app_name) category (disk w)) w)
    | Some (Symlink _) => (Raise "OSError", w)
    | Some RegularFile => (Raise "NotADirectoryError", w)
    | None => (Raise "FileNotFoundError", w)
    end.

(** [target.symlink_to(source)]: the parent directory must exist, the
    target must not. *)
Definition symlink_to (env : environment) (source : path)
    (category app_name : string) : io unit :=
  fun w =>
    match disk w !! category with
    | None => (Raise "FileNotFoundError", w)
    | Some dir =>
        match dir !! app_name with
        | Some _ => (Raise "FileExistsError", w)
        | None =>
            if env_symlink_permitted env
            then (Ok tt, set_disk (<[category := <[app_name := Symlink source]> dir]>
                                     (disk w)) w)
            else (Raise "OSError", w)
        end
    end.

(** [shutil.copytree(source, target)]: lists the source, creates the target
    with its missing parents (refusing an existing target), then copies. *)
Definition copytree (env : environment) (source : path)
    (category app_name : string) : io unit :=
  fun w =>
    match env_copy env source with
    | CopyRefused => (Raise "FileNotFoundError", w)
    | outcome =>
        match lookup_entry (disk w) category app_name with
        | Some _ => (Raise "FileExistsError", w)
        | None =>
            let dir := default ∅ (disk w !! category) in
            let whole := match outcome with CopyDone => true | _ => false end in
            let w' := set_disk (<[category := <[app_name := Tree source whole]> dir]>
                                  (disk w)) w in
            (if whole then Ok tt else Raise "shutil.Error", w')
        end
    end.

(** A [for] loop whose body can raise. *)
Fixpoint for_each {A} (body : A -> io unit) (l : list A) : io unit :=
  match l with
  | [] => io_ret tt
  | x :: rest => let+ _ := body x in for_each body rest
  end.

(** [[app for app in apps if app.get('category') == category]]. *)
Definition category_apps (apps : list app_info) (category : string)
    : list app_info :=
  List.filter (fun app => String.eqb (ai_category app) category) apps.

(** The outer [try] of both organizers: [True] when the body ends,
    [False] with a log line when an exception reaches it. *)
Definition report (body : io unit) : world -> bool * world :=
  fun w =>
    match body w with
    | (Ok _, w') => (true, w')
    | (Raise e, w') =>
        (false, {| disk := disk w'; errors := errors w' ++ [ErrorOrganizing e] |})
    end.

Module Organizer.

(** [self.categories], in the order of the dictionary literal. *)
Definition categories : list (string * list string) :=
  [ ("1-Web-Development",
      ["1-Web-Development-Applications"; "10-Web-Development-Applications"]);
    ("2-Data-Science", ["2-Data-Science"; "11-Data-Science-Applications"]);
    ("3-Machine-Learning",
      ["3-Machine-Learning"; "12-Machine-Learning-Applications"]);
    ("4-Computer-Vision",
      ["4-Computer-Vision"; "7-Computer-Vision-Applications"]);
    ("5-Natural-Language-Processing",
      ["5-Natural-Language-Processing";
       "8-Natural-Language-Processing-Applications"]);
    ("6-Generative-AI", ["6-Generative-AI"; "9-Generative-AI-Applications"]) ].

(** The body of the inner loop of
    [ColabAppStoreCore.organize_apps_into_categories]. *)
Definition place (env : environment) (category : string) (app : app_info)
    : io unit :=
  let app_name := ai_name app in
  let app_path := ai_path app in
  io_try
    (let+ here := target_exists env category app_name in
     let+ _ := (if here then rmtree category app_name else io_ret tt) in
     symlink_to env app_path category app_name)
    (fun _ =>
       io_try (copytree env app_path category app_name)
              (fun copy_error => logger_error (ErrorCopying app_name copy_error))).

(** [ColabAppStoreCore.organize_apps_into_categories], [apps] standing
    for [self.apps]. *)
Definition organize_apps_into_categories (env : environment)
    (apps : list app_info) : world -> bool * world :=
  report
    (for_each
       (fun '(category, _) =>
          for_each (place env category) (category_apps apps category))
       categories).

(** [app_utils.create_app_symlink(source_path, target_path)]. *)
Definition create_app_symlink (env : environment) (source_path : path)
    (category app_name : string) : io bool :=
  io_try
    (let+ here := target_exists env category app_name in
     let+ _ := (if here then rmtree category app_name else io_ret tt) in
     let+ _ := symlink_to env source_path category app_name in
     io_ret true)
    (fun e =>
       let+ _ := logger_error (ErrorCreatingSymlink e) in
       io_try (let+ _ := copytree env source_path category app_name in
               io_ret true)
              (fun copy_error =>
                 let+ _ := logger_error (ErrorCopyingFolder copy_error) in
                 io_ret false)).

(** [app_utils.organize_apps_into_categories(apps, base_path,
    categories)]. *)
Definition utils_organize_apps_into_categories (env : environment)
    (apps : list app_info) (categories : list (string * list string))
    : world -> bool * world :=
  report
    (for_each
       (fun '(category, _) =>
          for_each
            (fun app =>
               let+ placed := create_app_symlink env (ai_path app) category
                                (ai_name app) in
               if negb placed then logger_error (FailedToOrganize (ai_name app))
               else io_ret tt)
            (category_apps apps category))
       categories).

End Organizer.

(** ** The effect of the organizer on the disk *)

(** [copytree] onto a free target. *)
Definition copy_disk (env : environment) (source : path)
    (category app_name : string) (d : gmap string (gmap string entry))
    : gmap string (gmap string entry) :=
  match env_copy env source with
  | CopyRefused => d
  | CopyDone =>
      <[category := <[app_name := Tree source true]> (default ∅ (d !! category))]> d
  | CopyPartial =>
      <[category := <[app_name := Tree source false]> (default ∅ (d !! category))]> d
  end.

(** The link, or else the copy, onto a free target. *)
Definition link_or_copy (env : environment) (source : path)
    (category app_name : string) (d : gmap string (gmap string entry))
    : gmap string (gmap string entry) :=
  match d !! category with
  | Some dir =>
      if env_symlink_permitted env
      then <[category := <[app_name := Symlink source]> dir]> d
      else copy_disk env source category app_name d
  | None => copy_disk env source category app_name d
  end.

(** What one placement leaves on the disk. *)
Definition place_disk (env : environment) (category : string) (app : app_info)
    (d : gmap string (gmap string entry)) : gmap string (gmap string entry) :=
  let app_name := ai_name app in
  match lookup_entry d category app_name with
  | Some (Symlink _) | Some RegularFile => d
  | Some (Tree _ _) =>
      link_or_copy env (ai_path app) category app_name
        (alter (delete app_name) category d)
  | None => link_or_copy env (ai_path app) category app_name d
  end.

(** The placements of a run, in the order the two loops make them. *)
Definition placements (categories : list (string * list string))
    (apps : list app_info) : list (string * app_info) :=
  flat_map (fun '(category, _) => map (pair category) (category_apps apps category))
           categories.

Definition run_placements (env : environment) (pl : list (string * app_info))
    (d : gmap string (gmap string entry)) : gmap string (gmap string entry) :=
  fold_left (fun d '(category, app) => place_disk env category app d) pl d.

(** The disk after one run of the organizer of the class. *)
Definition organize_disk (env : environment) (apps : list app_info)
    (d : gmap string (gmap string entry)) : gmap string (gmap string entry) :=
  disk (snd (Organizer.organize_apps_into_categories env apps
               {| disk := d; errors := [] |})).

(** The disk after one run of the organizer of [app_utils]. *)
Definition utils_organize_disk (env : environment) (apps : list app_info)
    (categories : list (string * list string))
    (d : gmap string (gmap string entry)) : gmap string (gmap string entry) :=
  disk (snd (Organizer.utils_organize_apps_into_categories env apps categories
               {| disk := d; errors := [] |})).

(** An entry that no placement changes. *)
Definition settled (e : option entry) : bool :=
  match e with
  | Some (Symlink _) | Some RegularFile => true
  | Some (Tree _ _) | None => false
  end.

(** What a placement from [source] makes of the target entry when the
    category directory exists. *)
Definition entry_step (env : environment) (e : option entry) (source : path)
    : option entry :=
  if settled e then e
  else if env_symlink_permitted env then Some (Symlink source)
  else match env_copy env source with
       | CopyDone => Some (Tree source true)
       | CopyPartial => Some (Tree source false)
       | CopyRefused => None
       end.

(** The sources placed on a target by a list of placements. *)
Definition sources_for (category app_name : string)
    (pl : list (string * app_info)) : list path :=
  map (fun ca => ai_path (snd ca))
      (List.filter (fun ca => bool_decide (fst ca = category /\ ai_name (snd ca) = app_name))
                   pl).


(** ** Reference definitions and sample inputs *)

(** The folder size in the words of the specification: the sum of the
    byte lengths of the regular files found under the folder, and [0] when
    the traversal or a [stat] fails. *)
Definition stat_ok (fs : filesystem) (f : path) : bool :=
  match fs_st_size fs f with Ok _ => true | Raise _ => false end.

Definition stat_size (fs : filesystem) (f : path) : Z :=
  match fs_st_size fs f with Ok n => Z.of_N n | Raise _ => 0%Z end.

Definition total (sizes : list Z) : Z := fold_right Z.add 0%Z sizes.

Definition folder_size_spec (fs : filesystem) (folder_path : path) : Z :=
  match fs_rglob fs folder_path with
  | Raise _ => 0%Z
  | Ok files =>
      let regular := List.filter (fs_is_file fs) files in
      if forallb (stat_ok fs) regular then total (map (stat_size fs) regular)
      else 0%Z
  end.


(** The names of a catalogue, when the scan returned one. *)
Definition catalogue_names (r : result (list app_info)) : option (list string) :=
  match r with
  | Ok apps => Some (map ai_name apps)
  | Raise _ => None
  end.

(** A small repository: [repo/main.py], and [repo/tools] holding
    [run.py] and [requirements.txt]. *)
Definition sample_files : list (path * N) :=
  [ (["repo"; "main.py"], 120%N);
    (["repo"; "tools"; "run.py"], 300%N);
    (["repo"; "tools"; "requirements.txt"], 14%N) ].

Definition sample_dirs : list path := [ ["repo"]; ["repo"; "tools"] ].

Definition is_below (root p : path) : bool :=
  bool_decide (firstn (List.length root) p = root)
  && (List.length root <? List.length p)%nat.

Definition sample_fs : filesystem := {|
  fs_exists p :=
    Ok (bool_decide (p ∈ sample_dirs ++ map fst sample_files));
  fs_is_file p := bool_decide (p ∈ map fst sample_files);
  fs_rglob p :=
    Ok (List.filter (is_below p) ((["repo"; "tools"] : path) :: map fst sample_files));
  fs_st_size p :=
    match List.find (fun e => bool_decide (fst e = p)) sample_files with
    | Some e => Ok (snd e)
    | None => Raise "FileNotFoundError"
    end
|}.

(** A process that may create links and a source tree that copies. *)
Definition sample_env : environment := {|
  env_exists p := bool_decide (p ∈ sample_dirs ++ map fst sample_files);
  env_symlink_permitted := true;
  env_copy _ := CopyDone
|}.

(** The catalogue of the sample repository. *)
Definition sample_catalogue : list app_info :=
  match ColabAppStoreCore.scan_repository_for_apps sample_fs ["repo"] with
  | Ok apps => apps
  | Raise _ => []
  end.

(** A base path whose six category directories exist and are empty. *)
Definition sample_disk : gmap string (gmap string entry) :=
  list_to_map (map (fun category => (category, ∅)) category_tags).

(** The same, with a regular file where [tools] is to be placed. *)
Definition blocked_disk : gmap string (gmap string entry) :=
  <["3-Machine-Learning" := {["tools" := RegularFile]}]> sample_disk.

(** ** Further definitions for the organizer *)

(** Every placement of the list goes into a category directory that is
    there, or has a source that [copytree] refuses (so that, without the
    directory, the placement changes nothing). *)
Definition ready (env : environment) (d : gmap string (gmap string entry))
    (pl : list (string * app_info)) : Prop :=
  forall c a, In (c, a) pl ->
    is_Some (d !! c) \/ env_copy env (ai_path a) = CopyRefused.


(** The sample base path after one run: [tools] is a link. *)
Definition linked_world : world :=
  {| disk := organize_disk sample_env sample_catalogue sample_disk;
     errors := [] |}.

(** ** Further definitions for the scanner and its callers *)

(** What [rglob] lists below a path, nothing when it raises. *)
Definition listed (fs : filesystem) (root : path) : list path :=
  match fs_rglob fs root with
  | Ok files => files
  | Raise _ => []
  end.

(** The runtime types: the keys of [app_indicators], and [unknown]. *)
Definition runtime_types : list string := map fst app_indicators ++ ["unknown"].

(** What holds of a record built for one of the listed files. *)
Definition record_ok (fs : filesystem) (files : list path) (a : app_info)
    : Prop :=
  In (ai_file_path a) files /\
  fs_is_file fs (ai_file_path a) = true /\
  is_candidate_suffix (suffix (ai_file_path a)) = true /\
  ai_path a = parent (ai_file_path a) /\
  ai_type a = detect_app_type (ai_file_path a) /\
  In (ai_type a) runtime_types /\
  ai_category a = determine_category (ai_name a) (ai_type a) /\
  In (ai_category a) category_tags /\
  ai_size a = get_folder_size fs (ai_path a) /\
  (0 <= ai_size a)%Z.

(** The two presence checks of a record end without an exception. *)
Definition probes_ok (fs : filesystem) (file_path : path) : bool :=
  match has_requirements_file fs (parent file_path) with
  | Ok _ =>
      match has_readme_file fs (parent file_path) with
      | Ok _ => true
      | Raise _ => false
      end
  | Raise _ => false
  end.

(** The files a scan makes a record for. *)
Definition makes_record (fs : filesystem) (file_path : path) : bool :=
  fs_is_file fs file_path && is_candidate_suffix (suffix file_path)
  && probes_ok fs file_path.

Definition has_name (n : string) (a : app_info) : bool :=
  String.eqb (ai_name a) n.

(** [app.get('category')] is one of the keys of [self.categories]. *)
Definition in_categories (a : app_info) : bool :=
  existsb (String.eqb (ai_category a)) (map fst Organizer.categories).

(** The counts of the category summary of [categorize_apps]
    ([gradio_ui.py]): for each category of [self.core.categories],
    [len([app for app in self.core.apps if app.get('category') == category])]. *)
Definition category_counts (apps : list app_info) : list nat :=
  map (fun '(category, _) => List.length (category_apps apps category))
      Organizer.categories.

(** Every indicator of a table is written in lower case. *)
Definition all_lower_case (table : list (string * list string)) : bool :=
  forallb (fun row => forallb (fun ind => String.eqb (PyStr.lower ind) ind) (snd row))
          table.

(** ** Dependency installer and readme viewer ([app_utils.py])

    The installer runs [pip] as a subprocess and the viewer reads a file;
    both are parameters here: [pip_install req_file] is the pair of the
    captured [stdout] and [stderr], or the exception [subprocess.run]
    raises (a timeout, for one); [read_text p] is the content of the file;
    [str e] is the text of an exception. *)

(** The loop [for n in names: if (app_path / n).exists(): found =
    app_path / n; break], [found] starting as [None]. *)
Fixpoint first_existing (fs : filesystem) (app_path : path)
    (names : list string) : result (option path) :=
  match names with
  | [] => Ok None
  | n :: rest =>
      let* here := fs_exists fs (join app_path n) in
      if here then Ok (Some (join app_path n))
      else first_existing fs app_path rest
  end.

(** The truth value of a string: it is not empty. *)
Definition truthy (s : string) : bool := negb (String.eqb s "").

(** [install_app_dependencies(app_path)]. *)
Definition install_app_dependencies (fs : filesystem)
    (pip_install : path -> result (string * string)) (str : string -> string)
    (app_path : path) : string :=
  catch
    (let* req_file :=
       first_existing fs app_path
         ["requirements.txt"; "environment.yml"; "pyproject.toml"] in
     match req_file with
     | Some req_file =>
         if String.eqb (name req_file) "requirements.txt" then
           let* captured := pip_install req_file in
           let output := "```\n" +:+ fst captured +:+ "\n```\n" in
           Ok (if truthy (snd captured)
               then output +:+ "**Errors:**\n```\n" +:+ snd captured +:+ "\n```\n"
               else output)
         else
           Ok ("Requirements file found: " +:+ name req_file
               +:+ "\nPlease install dependencies manually for this file type.\n")
     | None => Ok "No requirements file found.\n"
     end)
    (fun e => "Error installing dependencies: " +:+ str e +:+ "\n").

(** [read_app_readme(app_path)]. *)
Definition read_app_readme (fs : filesystem)
    (read_text : path -> result string) (str : string -> string)
    (app_path : path) : string :=
  catch
    (let* readme_file :=
       first_existing fs app_path
         ["README.md"; "README.rst"; "README.txt"; "readme.md"] in
     match readme_file with
     | Some readme_file =>
         let* readme_content := read_text readme_file in
         Ok ("```\n" +:+ readme_content +:+ "\n```")
     | None => Ok "No README file found.\n"
     end)
    (fun e => "Error reading README: " +:+ str e +:+ "\n").

(** ** The selectors of the user interfaces *)

(** [x in selected], for a list of strings. *)
Definition member (x : string) (selected : list string) : bool :=
  existsb (String.eqb x) selected.

(** [[app for app in apps if search_term in app['name'].lower()]]. *)
Definition search_apps (search_text : string) (apps : list app_info)
    : list app_info :=
  let search_term := PyStr.lower search_text in
  List.filter (fun app => PyStr.contains search_term (PyStr.lower (ai_name app)))
              apps.

(** [scripts/gradio_ui.py], class [GradioAppStoreUI]. *)
Module GradioUI.

(** [update_filters(search_text, selected_categories, selected_types)]:
    the choices of the dropdown and its value. *)
Definition update_filters (apps : list app_info) (search_text : string)
    (selected_categories selected_types : list string)
    : list string * option string :=
  let filtered_apps := apps in
  let filtered_apps :=
    if truthy search_text then search_apps search_text filtered_apps
    else filtered_apps in
  let filtered_apps :=
    match selected_categories with
    | [] => filtered_apps
    | _ => List.filter (fun app => member (ai_category app) selected_categories)
                       filtered_apps
    end in
  let filtered_apps :=
    match selected_types with
    | [] => filtered_apps
    | _ => List.filter (fun app => member (ai_type app) selected_types)
                       filtered_apps
    end in
  let app_names := map ai_name filtered_apps in
  (app_names, List.head app_names).

(** The lookup of [on_app_selected]:
    [next((app for app in apps if app['name'] == value), None)]. *)
Definition selected_app (apps : list app_info) (value : string)
    : option app_info :=
  List.find (fun app => String.eqb (ai_name app) value) apps.

End GradioUI.

(** [scripts/panel_ui.py], class [InteractiveDashboard]. *)
Module PanelUI.

(** [update_app_selector_options()]: the new options of the selector and
    its new value, from the values of the three filter widgets and the
    value the selector had. *)
Definition update_app_selector_options (apps : list app_info)
    (search_text : string) (selected_types selected_categories : list string)
    (value : option string) : list string * option string :=
  let filtered_apps := apps in
  let filtered_apps :=
    if truthy search_text then search_apps search_text filtered_apps
    else filtered_apps in
  let filtered_apps :=
    match selected_types with
    | [] => filtered_apps
    | _ => List.filter (fun app => member (ai_type app) selected_types)
                       filtered_apps
    end in
  let filtered_apps :=
    match selected_categories with
    | [] => filtered_apps
    | _ => List.filter (fun app => member (ai_category app) selected_categories)
                       filtered_apps
    end in
  let options := map ai_name filtered_apps in
  let value :=
    match value with
    | Some v =>
        if truthy v && negb (member v options) then List.head options
        else value
    | None => value
    end in
  (options, value).

End PanelUI.

(** A directory whose only manifest is [setup.py]. *)
Definition setup_only_fs : filesystem := {|
  fs_exists p := Ok (bool_decide (p = ["pkg"] \/ p = ["pkg"; "setup.py"]));
  fs_is_file p := bool_decide (p = ["pkg"; "setup.py"]);
  fs_rglob p := Ok (if bool_decide (p = ["pkg"]) then [["pkg"; "setup.py"]] else []);
  fs_st_size p :=
    if bool_decide (p = ["pkg"; "setup.py"]) then Ok 40%N
    else Raise "FileNotFoundError"
|}.

(** * Properties *)

(** ** Paths *)

Lemma name_join (p : path) (child : string) : name (join p child) = child.
Proof. unfold name, join. apply last_last. Qed.

Lemma parent_join (p : path) (child : string) : parent (join p child) = p.
Proof. unfold parent, join. apply removelast_last. Qed.

Lemma suffix_join (p : path) (child : string) :
  suffix (join p child) = suffix [child].
Proof. unfold suffix. now rewrite name_join. Qed.

Lemma stem_join (p : path) (child : string) :
  stem (join p child) = stem [child].
Proof. unfold stem. now rewrite name_join. Qed.

(** ** Heuristic classifier *)

Section FirstHit.

Variables file_name sfx : string.

Let hit (indicators : list string) : bool :=
  existsb (indicator_hits file_name sfx) indicators.

(** The loop returns the first type of the table one of whose indicators
    hits: no type listed before it has a hit. *)
Lemma first_hit_earliest (table : list (string * list string)) (t : string) :
  first_hit file_name sfx table = Some t ->
  exists before indicators after,
    table = before ++ (t, indicators) :: after /\
    hit indicators = true /\
    Forall (fun e => hit (snd e) = false) before.
Proof.
  induction table as [|[t' inds] rest IH]; simpl; [discriminate|].
  destruct (existsb (indicator_hits file_name sfx) inds) eqn:E.
  - intros [= <-]. exists [], inds, rest. repeat split; auto.
  - intros H. destruct (IH H) as (before & indicators & after & -> & Hh & Hb).
    exists ((t', inds) :: before), indicators, after. repeat split; auto.
Qed.

Lemma first_hit_none (table : list (string * list string)) :
  first_hit file_name sfx table = None <->
  Forall (fun e => hit (snd e) = false) table.
Proof.
  induction table as [|[t' inds] rest IH]; simpl.
  - split; auto.
  - destruct (existsb (indicator_hits file_name sfx) inds) eqn:E.
    + split; [discriminate|]. intros H. inversion H; subst. simpl in *.
      unfold hit in *. congruence.
    + rewrite IH. split; intros H.
      * constructor; auto.
      * now inversion H.
Qed.

(** Conversely, a row with a hit is reached when no row before it has
    one. *)
Lemma first_hit_skips (before after : list (string * list string))
    (t : string) (indicators : list string) :
  Forall (fun e => hit (snd e) = false) before ->
  hit indicators = true ->
  first_hit file_name sfx (before ++ (t, indicators) :: after) = Some t.
Proof.
  intros Hb Hh. induction Hb as [|[t' inds] before Hx _ IH]; simpl.
  - unfold hit in Hh. now rewrite Hh.
  - simpl in Hx. unfold hit in Hx. now rewrite Hx.
Qed.

End FirstHit.

Lemma existsb_false {A} (f : A -> bool) (l : list A) :
  (forall x, In x l -> f x = false) -> existsb f l = false.
Proof.
  intros H. apply not_true_is_false. intros E.
  apply existsb_exists in E as (x & Hx & Hf). rewrite (H x Hx) in Hf.
  discriminate.
Qed.

(** The name decides the type: the directories above the file play no
    part. *)
Lemma detect_app_type_join (p : path) (file_name : string) :
  detect_app_type (join p file_name) = detect_app_type [file_name].
Proof. unfold detect_app_type. now rewrite name_join, suffix_join. Qed.

(** Whatever type is detected, its row of the table has a hit and no row
    before it has one. *)
Lemma detect_app_type_earliest (file_path : path) :
  detect_app_type file_path = "unknown" \/
  exists before indicators after,
    app_indicators = before ++ (detect_app_type file_path, indicators) :: after /\
    existsb (indicator_hits (PyStr.lower (name file_path)) (suffix file_path))
            indicators = true /\
    Forall (fun e =>
              existsb (indicator_hits (PyStr.lower (name file_path))
                         (suffix file_path)) (snd e) = false) before.
Proof.
  unfold detect_app_type.
  destruct (first_hit _ _ app_indicators) as [t|] eqn:E; [right|now left].
  now apply first_hit_earliest.
Qed.

(** C10: a file named exactly [app.py] is a streamlit app, [main.py] a
    flask app and [run.py] a plain python app, in whatever directory the
    file lies; and in general the type detected is the first one of the
    table with an indicator that hits, so a name listed under several
    types goes to the earliest of them. *)
Theorem shared_indicator_names_resolve_to_earliest_type (dir : path) :
  detect_app_type (join dir "app.py") = "streamlit" /\
  detect_app_type (join dir "main.py") = "flask" /\
  detect_app_type (join dir "run.py") = "python" /\
  forall file_path,
    detect_app_type file_path = "unknown" \/
    exists before indicators after,
      app_indicators
        = before ++ (detect_app_type file_path, indicators) :: after /\
      existsb (indicator_hits (PyStr.lower (name file_path)) (suffix file_path))
              indicators = true /\
      Forall (fun e =>
                existsb (indicator_hits (PyStr.lower (name file_path))
                           (suffix file_path)) (snd e) = false) before.
Proof.
  rewrite !detect_app_type_join.
  split; [|split; [|split]]; [vm_compute; reflexivity ..|].
  apply detect_app_type_earliest.
Qed.

(** C2, as stated, fails: a notebook whose name mentions an earlier type
    is given that type. *)
Lemma ipynb_not_always_jupyter :
  suffix ["streamlit_demo.ipynb"] = ".ipynb" /\
  detect_app_type ["streamlit_demo.ipynb"] = "streamlit" /\
  detect_app_type ["streamlit_demo.ipynb"] <> "jupyter".
Proof. vm_compute. repeat split; discriminate. Qed.

(** C2, amended: a file with the extension [.ipynb] is a jupyter app when
    its lowercased name contains no indicator of the four types the table
    lists before jupyter (streamlit, gradio, flask, fastapi). *)
Theorem ipynb_detected_as_jupyter (file_path : path) :
  suffix file_path = ".ipynb" ->
  Forall (fun ind => PyStr.contains ind (PyStr.lower (name file_path)) = false)
         (indicators_before "jupyter" app_indicators) ->
  detect_app_type file_path = "jupyter".
Proof.
  intros Hs Hf. unfold detect_app_type. rewrite Hs.
  set (fn := PyStr.lower (name file_path)) in *.
  assert (Hno : forall ind,
             In ind (indicators_before "jupyter" app_indicators) ->
             indicator_hits fn ".ipynb" ind = false).
  { intros ind Hin. unfold indicator_hits.
    rewrite List.Forall_forall in Hf. rewrite (Hf ind Hin). simpl orb.
    simpl in Hin. intuition (subst; reflexivity). }
  assert (first_hit fn ".ipynb" app_indicators = Some "jupyter") as ->;
    [|reflexivity].
  apply (first_hit_skips fn ".ipynb" (firstn 4 app_indicators)
           (skipn 5 app_indicators) "jupyter" [".ipynb"]).
  - repeat constructor; apply existsb_false; intros ind Hin; apply Hno;
      simpl in *; tauto.
  - cbn [existsb]. unfold indicator_hits. rewrite String.eqb_refl.
    now rewrite orb_true_r.
Qed.

Lemma ipynb_detected_as_jupyter_witness :
  detect_app_type ["model.ipynb"] = "jupyter".
Proof.
  apply (ipynb_detected_as_jupyter ["model.ipynb"]).
  - vm_compute. reflexivity.
  - vm_compute. repeat constructor.
Defined.

(** ** Categories *)

Lemma type_to_category_tag (app_type tag : string) :
  type_to_category !! app_type = Some tag -> In tag category_tags.
Proof.
  unfold type_to_category. intros H.
  apply elem_of_list_to_map_2, list_elem_of_In in H. simpl in H.
  decompose [or] H; try contradiction;
    match goal with E : (_, _) = (_, _) |- _ => inversion E end;
    simpl; tauto.
Qed.

(** The chain of [if]/[elif] is the first-match search over the ordered
    keyword groups followed by the table and the default. *)
Lemma determine_category_two_tier (app_name app_type : string) :
  determine_category app_name app_type = two_tier_category app_name app_type.
Proof.
  unfold determine_category, two_tier_category, first_keyword_group,
    keyword_groups.
  cbn [List.find fst snd].
  repeat (match goal with
          | |- context [PyStr.any_in ?k ?s] =>
              destruct (PyStr.any_in k s); [reflexivity|]
          end).
  cbn. now destruct (type_to_category !! app_type).
Qed.

(** C3: [determine_category] assigns to every name and every runtime type
    one of the six (pairwise different) category tags, and it does so by
    the two-tier rule: first keyword group with a keyword in the name,
    else the table on the runtime type, else [3-Machine-Learning]. *)
Theorem determine_category_total (app_name app_type : string) :
  In (determine_category app_name app_type) category_tags /\
  NoDup category_tags /\
  determine_category app_name app_type = two_tier_category app_name app_type /\
  determine_category "xyz" "unknown" = "3-Machine-Learning" /\
  determine_category "xyz" "panel" = "2-Data-Science".
Proof.
  split; [|split; [|split; [apply determine_category_two_tier|]]].
  - unfold determine_category.
    repeat (match goal with
            | |- context [PyStr.any_in ?k ?s] =>
                destruct (PyStr.any_in k s); [simpl; tauto|]
            end).
    destruct (type_to_category !! app_type) as [tag|] eqn:E; simpl.
    + now apply type_to_category_tag in E.
    + tauto.
  - unfold category_tags. compute_done.
  - split; vm_compute; reflexivity.
Qed.

(** ** Filesystem prober *)

Lemma sum_file_sizes_spec (fs : filesystem) (files : list path) :
  match sum_file_sizes fs files with
  | Ok z =>
      forallb (stat_ok fs) (List.filter (fs_is_file fs) files) = true /\
      z = total (map (stat_size fs) (List.filter (fs_is_file fs) files))
  | Raise _ =>
      forallb (stat_ok fs) (List.filter (fs_is_file fs) files) = false
  end.
Proof.
  induction files as [|f rest IH]; simpl; [auto|].
  destruct (fs_is_file fs f); [|exact IH].
  assert (Hok : stat_ok fs f =
                match fs_st_size fs f with Ok _ => true | Raise _ => false end)
    by reflexivity.
  assert (Hsz : stat_size fs f =
                match fs_st_size fs f with Ok n => Z.of_N n | Raise _ => 0%Z end)
    by reflexivity.
  cbn [forallb map total fold_right]. rewrite Hok, Hsz.
  destruct (fs_st_size fs f) as [n|e]; simpl; [|reflexivity].
  destruct (sum_file_sizes fs rest) as [z|e]; simpl.
  - destruct IH as [-> ->]. auto.
  - exact IH.
Qed.

Lemma total_nonneg (fs : filesystem) (files : list path) :
  (0 <= total (map (stat_size fs) files))%Z.
Proof.
  induction files as [|f rest IH]; simpl; [lia|].
  unfold stat_size at 1. destruct (fs_st_size fs f); lia.
Qed.

(** C7: [get_folder_size] always yields an integer, never an exception;
    the integer is not negative; it is the sum of the sizes of the regular
    files the traversal lists, and [0] as soon as the traversal or the
    [stat] of one of these files fails. *)
Theorem get_folder_size_never_fails (fs : filesystem) (folder_path : path) :
  (0 <= get_folder_size fs folder_path)%Z /\
  get_folder_size fs folder_path = folder_size_spec fs folder_path.
Proof.
  assert (E : get_folder_size fs folder_path = folder_size_spec fs folder_path).
  { unfold get_folder_size, folder_size_spec.
    destruct (fs_rglob fs folder_path) as [files|e]; simpl; [|reflexivity].
    pose proof (sum_file_sizes_spec fs files) as H.
    destruct (sum_file_sizes fs files) as [z|e]; simpl.
    - destruct H as [-> ->]. reflexivity.
    - now rewrite H. }
  split; [|exact E].
  rewrite E. unfold folder_size_spec.
  destruct (fs_rglob fs folder_path) as [files|e]; [|lia].
  cbv zeta. destruct (forallb _ _); [apply total_nonneg|lia].
Qed.

Example get_folder_size_sample :
  get_folder_size sample_fs ["repo"] = 434%Z /\
  get_folder_size sample_fs ["repo"; "tools"] = 314%Z.
Proof. vm_compute. auto. Qed.

(** ** [format_size] *)


(** ** Repository scanner *)

Lemma build_app_info_name (fs : filesystem) (app_name : string)
    (file_path : path) (app : app_info) :
  build_app_info fs app_name file_path = Ok app -> ai_name app = app_name.
Proof.
  unfold build_app_info.
  destruct (has_requirements_file fs (parent file_path)); simpl; [|discriminate].
  destruct (has_readme_file fs (parent file_path)); simpl; [|discriminate].
  now intros [= <-].
Qed.

(** The rule of the class: the directory's name, and the stem when that
    name is the name of the repository root. *)
Lemma core_create_app_info_name (fs : filesystem) (repo_path file_path : path)
    (app : app_info) :
  ColabAppStoreCore.create_app_info fs repo_path file_path = Some app ->
  ai_name app =
    if String.eqb (name (parent file_path)) (name repo_path)
    then stem file_path else name (parent file_path).
Proof.
  unfold ColabAppStoreCore.create_app_info.
  destruct (build_app_info fs _ file_path) as [a|e] eqn:E; [|discriminate].
  intros [= <-]. apply build_app_info_name in E. rewrite E.
  now destruct (String.eqb _ _).
Qed.

(** The module-level constructor never takes the directory's name. *)
Lemma utils_create_app_info_name (fs : filesystem) (file_path : path)
    (app : app_info) :
  AppUtils.create_app_info_from_file fs file_path = Some app ->
  ai_name app = stem file_path.
Proof.
  unfold AppUtils.create_app_info_from_file.
  rewrite String.eqb_refl. cbn [negb].
  destruct (build_app_info fs _ file_path) as [a|e] eqn:E; [|discriminate].
  intros [= <-]. now apply build_app_info_name in E.
Qed.

(** C1: the class names a record after the directory of the file, and
    after the stem of the file when the directory bears the name of the
    root, as the claim says; the function of [app_utils] names every record
    after the stem.  At [repo/tools/run.py], scanned from [repo], the class
    gives [tools] and [app_utils] gives [run]. *)
Theorem utils_scan_names_record_after_file (fs : filesystem)
    (repo_path file_path : path) :
  match ColabAppStoreCore.create_app_info fs repo_path file_path with
  | Some app =>
      ai_name app =
        if String.eqb (name (parent file_path)) (name repo_path)
        then stem file_path else name (parent file_path)
  | None => True
  end /\
  match AppUtils.create_app_info_from_file fs file_path with
  | Some app => ai_name app = stem file_path
  | None => True
  end /\
  option_map ai_name
    (ColabAppStoreCore.create_app_info sample_fs ["repo"]
       ["repo"; "tools"; "run.py"]) = Some "tools" /\
  option_map ai_name
    (AppUtils.create_app_info_from_file sample_fs
       ["repo"; "tools"; "run.py"]) = Some "run" /\
  name (parent ["repo"; "tools"; "run.py"]) = "tools" /\
  name ["repo"] = "repo" /\
  catalogue_names (ColabAppStoreCore.scan_repository_for_apps sample_fs ["repo"])
    = Some ["main"; "tools"] /\
  catalogue_names (AppUtils.scan_repository_for_apps sample_fs ["repo"])
    = Some ["main"; "run"].
Proof.
  split; [|split].
  - destruct (ColabAppStoreCore.create_app_info fs repo_path file_path)
      as [app|] eqn:E; [|exact I].
    now apply core_create_app_info_name in E.
  - destruct (AppUtils.create_app_info_from_file fs file_path)
      as [app|] eqn:E; [|exact I].
    now apply utils_create_app_info_name in E.
  - vm_compute. repeat split.
Qed.



Section Sorting.

Local Hint Constructors Sorted HdRel : core.




Lemma insert_by_name_perm (a : app_info) (l : list app_info) :
  Permutation (a :: l) (insert_by_name a l).
Proof.
  induction l as [|b l IH]; simpl; [reflexivity|].
  destruct (String.leb (ai_name a) (ai_name b)); [reflexivity|].
  rewrite perm_swap. now constructor.
Qed.

(** Sorting loses and invents no record. *)
Lemma sorted_by_name_perm (apps : list app_info) :
  Permutation apps (sorted_by_name apps).
Proof.
  induction apps as [|a rest IH]; simpl; [reflexivity|].
  rewrite <- insert_by_name_perm. now constructor.
Qed.

End Sorting.


Example scan_sample :
  catalogue_names (ColabAppStoreCore.scan_repository_for_apps sample_fs ["repo"])
    = Some ["main"; "tools"].
Proof. vm_compute. reflexivity. Qed.

(** ** Category organizer *)

(** One placement always ends, and leaves [place_disk] on the disk. *)
Lemma place_run (env : environment) (category : string) (app : app_info) (w : world) :
  exists lines,
    Organizer.place env category app w
    = (Ok tt, {| disk := place_disk env category app (disk w);
                 errors := errors w ++ lines |}).
Proof.
  destruct w as [d errs].
  unfold Organizer.place, io_try, io_bind, target_exists, rmtree, symlink_to,
    copytree, logger_error, io_ret, place_disk, link_or_copy, copy_disk,
    lookup_entry, set_disk. cbn [disk errors].
  destruct (env_symlink_permitted env), (env_copy env (ai_path app));
  (destruct (d !! category) as [dir|] eqn:Ed;
   [destruct (dir !! ai_name app) as [[t|src whole|]|] eqn:En;
    [destruct (env_exists env t)| | |]|]);
  repeat (first [rewrite Ed | rewrite En | rewrite lookup_alter_eq
                | rewrite lookup_delete_eq | progress cbn]);
  first [by eauto | by (exists []; rewrite app_nil_r)].
Qed.

Lemma create_app_symlink_run (env : environment) (category : string) (app : app_info) (w : world) :
  exists placed lines,
    Organizer.create_app_symlink env (ai_path app) category (ai_name app) w
    = (Ok placed, {| disk := place_disk env category app (disk w);
                 errors := errors w ++ lines |}).
Proof.
  destruct w as [d errs].
  unfold Organizer.create_app_symlink, io_try, io_bind, target_exists, rmtree, symlink_to,
    copytree, logger_error, io_ret, place_disk, link_or_copy, copy_disk,
    lookup_entry, set_disk. cbn [disk errors].
  destruct (env_symlink_permitted env), (env_copy env (ai_path app));
  (destruct (d !! category) as [dir|] eqn:Ed;
   [destruct (dir !! ai_name app) as [[t|src whole|]|] eqn:En;
    [destruct (env_exists env t)| | |]|]);
  repeat (first [rewrite Ed | rewrite En | rewrite lookup_alter_eq
                | rewrite lookup_delete_eq | progress cbn]);
  rewrite <- ?app_assoc;
  first [by eauto | by (eexists _, []; rewrite app_nil_r)].
Qed.

(** A loop whose body always ends runs the whole list. *)
Lemma for_each_run {A} (body : A -> io unit)
    (step : A -> gmap string (gmap string entry) -> gmap string (gmap string entry))
    (l : list A) :
  (forall x w, exists lines,
      body x w = (Ok tt, {| disk := step x (disk w); errors := errors w ++ lines |})) ->
  forall w, exists lines,
    for_each body l w
    = (Ok tt, {| disk := fold_left (fun d x => step x d) l (disk w);
                 errors := errors w ++ lines |}).
Proof.
  intros Hbody. induction l as [|x rest IH]; intros w; cbn [for_each fold_left].
  - exists []. unfold io_ret. rewrite app_nil_r. now destruct w.
  - unfold io_bind. destruct (Hbody x w) as [lines1 ->].
    destruct (IH {| disk := step x (disk w); errors := errors w ++ lines1 |})
      as [lines2 ->].
    cbn [disk errors]. exists (lines1 ++ lines2). now rewrite app_assoc.
Qed.

Lemma run_placements_app env pl1 pl2 d :
  run_placements env (pl1 ++ pl2) d
  = run_placements env pl2 (run_placements env pl1 d).
Proof. unfold run_placements. apply fold_left_app. Qed.

Lemma run_placements_category env category apps d :
  run_placements env (map (pair category) apps) d
  = fold_left (fun d app => place_disk env category app d) apps d.
Proof.
  revert d. induction apps as [|a rest IH]; intros d; [reflexivity|].
  cbn. apply IH.
Qed.

Lemma run_placements_loops env categories apps d :
  fold_left
    (fun d (row : string * list string) =>
       fold_left (fun d app => place_disk env (fst row) app d)
                 (category_apps apps (fst row)) d)
    categories d
  = run_placements env (placements categories apps) d.
Proof.
  revert d. induction categories as [|[c subs] rest IH]; intros d; [reflexivity|].
  cbn [fold_left placements flat_map fst].
  rewrite run_placements_app, run_placements_category. apply IH.
Qed.

Lemma organize_run env apps w :
  exists lines,
    Organizer.organize_apps_into_categories env apps w
    = (true, {| disk := run_placements env (placements Organizer.categories apps) (disk w);
                errors := errors w ++ lines |}).
Proof.
  unfold Organizer.organize_apps_into_categories, report.
  destruct (for_each_run
              (fun row : string * list string =>
                 let '(category, _) := row in
                 for_each (Organizer.place env category) (category_apps apps category))
              (fun row d =>
                 fold_left (fun d app => place_disk env (fst row) app d)
                           (category_apps apps (fst row)) d)
              Organizer.categories) with (w := w) as [lines E].
  - intros [c subs] w'. cbn [fst].
    apply (for_each_run (Organizer.place env c) (place_disk env c)).
    intros app w''. apply place_run.
  - rewrite E. exists lines. now rewrite run_placements_loops.
Qed.

Lemma utils_organize_run env apps categories w :
  exists lines,
    Organizer.utils_organize_apps_into_categories env apps categories w
    = (true, {| disk := run_placements env (placements categories apps) (disk w);
                errors := errors w ++ lines |}).
Proof.
  unfold Organizer.utils_organize_apps_into_categories, report.
  destruct (for_each_run
              (fun row : string * list string =>
                 let '(category, _) := row in
                 for_each
                   (fun app =>
                      let+ placed := Organizer.create_app_symlink env (ai_path app)
                                       category (ai_name app) in
                      if negb placed
                      then logger_error (FailedToOrganize (ai_name app))
                      else io_ret tt)
                   (category_apps apps category))
              (fun row d =>
                 fold_left (fun d app => place_disk env (fst row) app d)
                           (category_apps apps (fst row)) d)
              categories) with (w := w) as [lines E].
  - intros [c subs] w'. cbn [fst].
    apply (for_each_run _ (place_disk env c)).
    intros app w''. unfold io_bind.
    destruct (create_app_symlink_run env c app w'') as (placed & lines & ->).
    destruct placed; cbn [negb]; unfold io_ret, logger_error; cbn [disk errors].
    + eauto.
    + exists (lines ++ [FailedToOrganize (ai_name app)]). now rewrite app_assoc.
  - rewrite E. exists lines. now rewrite run_placements_loops.
Qed.

(** *** Entries, target by target *)

Lemma disk_ext (d1 d2 : gmap string (gmap string entry)) :
  (forall c, is_Some (d1 !! c) <-> is_Some (d2 !! c)) ->
  (forall c n, lookup_entry d1 c n = lookup_entry d2 c n) ->
  d1 = d2.
Proof.
  intros Hdom Hlook. apply map_eq. intros c.
  specialize (Hdom c). pose proof (Hlook c) as Hc. unfold lookup_entry in Hc.
  destruct (d1 !! c) as [dir1|], (d2 !! c) as [dir2|].
  - f_equal. apply map_eq. exact Hc.
  - destruct Hdom as [H _]. destruct H as [? [=]]. eauto.
  - destruct Hdom as [_ H]. destruct H as [? [=]]. eauto.
  - reflexivity.
Qed.

Lemma place_disk_lookup env c a d c' n' :
  is_Some (d !! c) ->
  lookup_entry (place_disk env c a d) c' n' =
    if bool_decide (c = c' /\ ai_name a = n')
    then entry_step env (lookup_entry d c' n') (ai_path a)
    else lookup_entry d c' n'.
Proof.
  intros [dir Ed].
  unfold place_disk, link_or_copy, copy_disk, entry_step, lookup_entry.
  rewrite Ed.
  destruct (dir !! ai_name a) as [[t|src whole|]|] eqn:En;
    destruct (env_symlink_permitted env), (env_copy env (ai_path a));
    case_bool_decide as Hd;
    try (destruct Hd as [<- <-]);
    repeat (first [rewrite Ed | rewrite En | rewrite lookup_alter_eq | rewrite lookup_insert_eq
                  | rewrite lookup_delete_eq | progress cbn]);
    try reflexivity.
  all: destruct (decide (c = c')) as [<-|Hc];
    repeat (first [rewrite Ed | rewrite En | rewrite lookup_alter_eq | rewrite lookup_insert_eq
                  | rewrite lookup_delete_eq | progress cbn | rewrite lookup_insert_ne by congruence | rewrite lookup_alter_ne by congruence| rewrite lookup_delete_ne by (intros ->; apply Hd; auto) ]); try reflexivity.
  all: assert (Hn : ai_name a <> n') by (intros E; apply Hd; auto).
  all: rewrite ?lookup_insert_ne, ?lookup_delete_ne by exact Hn; reflexivity.
Qed.

Lemma place_disk_dom env c a d c' :
  is_Some (d !! c) ->
  is_Some (place_disk env c a d !! c') <-> is_Some (d !! c').
Proof.
  intros [dir Ed].
  unfold place_disk, link_or_copy, copy_disk, lookup_entry.
  rewrite Ed.
  destruct (dir !! ai_name a) as [[t|src whole|]|] eqn:En;
    destruct (env_symlink_permitted env), (env_copy env (ai_path a));
    repeat (first [rewrite Ed | rewrite lookup_alter_eq | progress cbn]);
    try reflexivity;
    destruct (decide (c = c')) as [<-|Hc];
    rewrite ?lookup_insert_eq, ?lookup_alter_eq, ?Ed,
      ?lookup_insert_ne, ?lookup_alter_ne by exact Hc;
    cbn; try reflexivity; split; eauto.
Qed.

Section Entries.
Variable env : environment.

Lemma entry_step_settled e source : settled e = true -> entry_step env e source = e.
Proof. unfold entry_step. now intros ->. Qed.

Lemma entry_step_soft e e' source :
  settled e = false -> settled e' = false ->
  entry_step env e source = entry_step env e' source.
Proof. unfold entry_step. now intros -> ->. Qed.

Lemma entry_fold_settled srcs e :
  settled e = true -> fold_left (entry_step env) srcs e = e.
Proof.
  induction srcs as [|s rest IH]; simpl; [reflexivity|].
  intros H. rewrite entry_step_settled by exact H. now apply IH.
Qed.

Lemma entry_fold_idempotent srcs e :
  fold_left (entry_step env) srcs (fold_left (entry_step env) srcs e)
  = fold_left (entry_step env) srcs e.
Proof.
  destruct (settled (fold_left (entry_step env) srcs e)) eqn:Hs.
  - now apply entry_fold_settled.
  - destruct srcs as [|s rest]; [reflexivity|].
    cbn [fold_left].
    destruct (settled e) eqn:He.
    + rewrite (entry_fold_settled (s :: rest) e He) in Hs. congruence.
    + f_equal. apply entry_step_soft; [exact Hs|exact He].
Qed.
End Entries.

(** *** Runs *)

Section Runs.

Variable env : environment.





Lemma organize_disk_run apps d :
  organize_disk env apps d
  = run_placements env (placements Organizer.categories apps) d.
Proof.
  unfold organize_disk.
  destruct (organize_run env apps {| disk := d; errors := [] |}) as [lines ->].
  reflexivity.
Qed.

Lemma utils_organize_disk_run apps categories d :
  utils_organize_disk env apps categories d
  = run_placements env (placements categories apps) d.
Proof.
  unfold utils_organize_disk.
  destruct (utils_organize_run env apps categories {| disk := d; errors := [] |})
    as [lines ->].
  reflexivity.
Qed.

End Runs.




Example organize_with_directories :
  map_to_list <$> organize_disk sample_env sample_catalogue sample_disk
                    !! "3-Machine-Learning"
    = Some [("tools", Symlink ["repo"; "tools"])] /\
  map_to_list <$> organize_disk sample_env sample_catalogue sample_disk
                    !! "6-Generative-AI"
    = Some [("main", Symlink ["repo"])].
Proof. vm_compute. auto. Qed.

(** On a target that holds a symbolic link or a file the link fails, the
    copy fails, the failure is logged, and the placement ends without an
    exception and without touching the disk. *)
Lemma place_on_settled_target (env : environment) (category : string)
    (app : app_info) (w : world) :
  settled (lookup_entry (disk w) category (ai_name app)) = true ->
  exists copy_error,
    Organizer.place env category app w
    = (Ok tt, {| disk := disk w;
                 errors := errors w ++ [ErrorCopying (ai_name app) copy_error] |}).
Proof.
  destruct w as [d errs].
  unfold Organizer.place, io_try, io_bind, target_exists, rmtree, symlink_to,
    copytree, logger_error, io_ret, lookup_entry, set_disk, settled.
  cbn [disk errors].
  destruct (env_symlink_permitted env), (env_copy env (ai_path app));
  (destruct (d !! category) as [dir|] eqn:Ed;
   [destruct (dir !! ai_name app) as [[t|src whole|]|] eqn:En;
    [destruct (env_exists env t)| | |]|]);
  try discriminate; intros _;
  repeat (first [rewrite Ed | rewrite En | progress cbn]);
  eauto.
Qed.

(** C5: both organizers return [True] whatever becomes of the individual
    placements, and the disk they leave is the one obtained by making
    every placement of every category in turn: a placement whose link and
    copy both fail (as on a target that holds a link or a file) is logged
    and the loop goes on. *)
Theorem organize_survives_failed_placements (env : environment)
    (apps : list app_info) (w : world) :
  fst (Organizer.organize_apps_into_categories env apps w) = true /\
  disk (snd (Organizer.organize_apps_into_categories env apps w))
    = run_placements env (placements Organizer.categories apps) (disk w) /\
  (forall categories,
      fst (Organizer.utils_organize_apps_into_categories env apps categories w)
        = true /\
      disk (snd (Organizer.utils_organize_apps_into_categories env apps
                   categories w))
        = run_placements env (placements categories apps) (disk w)) /\
  (forall category app,
      settled (lookup_entry (disk w) category (ai_name app)) = true ->
      exists copy_error,
        Organizer.place env category app w
        = (Ok tt, {| disk := disk w;
                     errors := errors w ++ [ErrorCopying (ai_name app) copy_error] |})).
Proof.
  destruct (organize_run env apps w) as [lines E].
  rewrite E. cbn [fst snd disk].
  repeat split.
  - destruct (utils_organize_run env apps categories w) as [lines' ->].
    reflexivity.
  - destruct (utils_organize_run env apps categories w) as [lines' ->].
    reflexivity.
  - intros category app. apply place_on_settled_target.
Qed.

(** The placement of [tools] fails on the file in its way; [main], in a
    later category, is placed all the same and the run reports success. *)
Example organize_continues_after_failure :
  let outcome :=
    Organizer.organize_apps_into_categories sample_env sample_catalogue
      {| disk := blocked_disk; errors := [] |} in
  fst outcome = true /\
  errors (snd outcome) = [ErrorCopying "tools" "FileExistsError"] /\
  lookup_entry (disk (snd outcome)) "3-Machine-Learning" "tools"
    = Some RegularFile /\
  lookup_entry (disk (snd outcome)) "6-Generative-AI" "main"
    = Some (Symlink ["repo"]).
Proof. vm_compute. auto. Qed.

(** * Further properties *)

(** ** Category organizer: what a run leaves alone, and when runs settle *)



Lemma place_disk_dom_mono env c a d c' :
  is_Some (d !! c') -> is_Some (place_disk env c a d !! c').
Proof.
  intros Hc'.
  destruct (d !! c) as [dir|] eqn:Ed.
  - apply place_disk_dom; eauto.
  - unfold place_disk, link_or_copy, copy_disk, lookup_entry. rewrite Ed.
    destruct (env_copy env (ai_path a)); try exact Hc';
      (destruct (decide (c = c')) as [<-|Hc];
       [ rewrite lookup_insert_eq; eauto
       | now rewrite lookup_insert_ne by exact Hc ]).
Qed.

Lemma place_disk_refused env c a d :
  d !! c = None -> env_copy env (ai_path a) = CopyRefused ->
  place_disk env c a d = d.
Proof.
  intros Ed Hr. unfold place_disk, link_or_copy, copy_disk, lookup_entry.
  now rewrite Ed, Hr.
Qed.

Lemma place_disk_creates env c a d :
  d !! c = None -> env_copy env (ai_path a) <> CopyRefused ->
  is_Some (place_disk env c a d !! c).
Proof.
  intros Ed Hr. unfold place_disk, link_or_copy, copy_disk, lookup_entry.
  rewrite Ed. destruct (env_copy env (ai_path a)); try congruence;
    rewrite lookup_insert_eq; eauto.
Qed.

Section MoreRuns.

Variable env : environment.

Lemma run_placements_dom_mono pl : forall d c,
  is_Some (d !! c) -> is_Some (run_placements env pl d !! c).
Proof.
  induction pl as [|[c0 a] rest IH]; intros d c H; [exact H|].
  change (is_Some (run_placements env rest (place_disk env c0 a d) !! c)).
  apply IH. now apply place_disk_dom_mono.
Qed.



(** After a run, every category of the list has its directory, or none
    of its sources can be copied. *)
Lemma run_placements_ready pl : forall d, ready env (run_placements env pl d) pl.
Proof.
  induction pl as [|[c0 a0] rest IH]; intros d c a Hin; [destruct Hin|].
  change (is_Some (run_placements env rest (place_disk env c0 a0 d) !! c)
          \/ env_copy env (ai_path a) = CopyRefused).
  destruct Hin as [[= -> ->]|Hin]; [|now apply IH].
  destruct (d !! c) as [dir|] eqn:Ed.
  - left. apply run_placements_dom_mono, place_disk_dom_mono. eauto.
  - destruct (env_copy env (ai_path a)) eqn:Hcopy; [left|left|now right];
      apply run_placements_dom_mono, place_disk_creates; congruence.
Qed.

Lemma ready_tail d c0 a rest d' :
  ready env d ((c0, a) :: rest) ->
  (forall c, is_Some (d !! c) -> is_Some (d' !! c)) ->
  ready env d' rest.
Proof.
  intros Hr Hm c a' Hin. destruct (Hr c a') as [H|H]; [now right|..]; auto.
Qed.

Lemma run_placements_ready_spec pl : forall d,
  ready env d pl ->
  (forall c, is_Some (run_placements env pl d !! c) <-> is_Some (d !! c)) /\
  (forall c n,
      lookup_entry (run_placements env pl d) c n
      = if bool_decide (is_Some (d !! c))
        then fold_left (entry_step env) (sources_for c n pl) (lookup_entry d c n)
        else None).
Proof.
  induction pl as [|[c0 a] rest IH]; intros d Hr.
  - split; [reflexivity|]. intros c n. cbn. case_bool_decide as Hc; [reflexivity|].
    unfold lookup_entry. destruct (d !! c); [exfalso; eauto|reflexivity].
  - change (run_placements env ((c0, a) :: rest) d)
      with (run_placements env rest (place_disk env c0 a d)).
    destruct (d !! c0) as [dir|] eqn:Ed.
    + assert (H0 : is_Some (d !! c0)) by eauto.
      destruct (IH (place_disk env c0 a d)) as [IHd IHl].
      { eapply ready_tail; [exact Hr|]. intros c. now apply place_disk_dom_mono. }
      split.
      * intros c. rewrite IHd. now apply place_disk_dom.
      * intros c n. rewrite IHl.
        rewrite (bool_decide_ext _ (is_Some (d !! c))) by now apply place_disk_dom.
        case_bool_decide as Hc; [|reflexivity].
        rewrite place_disk_lookup by exact H0.
        unfold sources_for. cbn [List.filter fst snd]. now case_bool_decide.
    + assert (Href : env_copy env (ai_path a) = CopyRefused).
      { destruct (Hr c0 a) as [[? H]|H]; [now left|congruence|exact H]. }
      rewrite place_disk_refused by assumption.
      destruct (IH d) as [IHd IHl].
      { eapply ready_tail; [exact Hr|]. auto. }
      split; [exact IHd|].
      intros c n. rewrite IHl. case_bool_decide as Hc; [|reflexivity].
      unfold sources_for. cbn [List.filter fst snd].
      case_bool_decide as Ht; [|reflexivity].
      destruct Ht as [Ht _]. cbn in Ht. subst c0.
      destruct Hc as [? Hc]. congruence.
Qed.

Lemma run_placements_idempotent_ready pl d :
  ready env d pl ->
  run_placements env pl (run_placements env pl d) = run_placements env pl d.
Proof.
  intros Hr.
  destruct (run_placements_ready_spec pl d Hr) as [Hd Hl].
  assert (Hr' : ready env (run_placements env pl d) pl).
  { intros c a Hin. destruct (Hr c a Hin) as [H|H]; [left|now right].
    now apply Hd. }
  destruct (run_placements_ready_spec pl _ Hr') as [Hd' Hl'].
  apply disk_ext; [exact Hd'|].
  intros c n. rewrite Hl', Hl.
  rewrite (bool_decide_ext _ (is_Some (d !! c))) by apply Hd.
  case_bool_decide; [apply entry_fold_idempotent|reflexivity].
Qed.

Lemma run_placements_settles pl d :
  run_placements env pl (run_placements env pl (run_placements env pl d))
  = run_placements env pl (run_placements env pl d).
Proof. apply run_placements_idempotent_ready, run_placements_ready. Qed.
End MoreRuns.

Lemma filter_none {A} (f : A -> bool) (l : list A) :
  (forall x, In x l -> f x = false) -> List.filter f l = [].
Proof.
  induction l as [|x l IH]; intros H; [reflexivity|].
  cbn. rewrite (H x) by now left. apply IH. intros y Hy. apply H. now right.
Qed.


(** X1: three runs of either organizer in succession leave the disk as
    two runs leave it, whatever was there before: from the second run on
    nothing changes. *)
Theorem organize_settles_after_two_runs (env : environment)
    (apps : list app_info) (d : gmap string (gmap string entry)) :
  organize_disk env apps (organize_disk env apps (organize_disk env apps d))
  = organize_disk env apps (organize_disk env apps d) /\
  forall categories,
    utils_organize_disk env apps categories
      (utils_organize_disk env apps categories
         (utils_organize_disk env apps categories d))
    = utils_organize_disk env apps categories
        (utils_organize_disk env apps categories d).
Proof.
  split; [|intros categories].
  - rewrite !organize_disk_run. apply run_placements_settles.
  - rewrite !utils_organize_disk_run. apply run_placements_settles.
Qed.





(** X4: [create_app_symlink] never raises.  When it returns [True] the
    target holds a link to the source or a complete copy of it; when it
    returns [False] it has logged the failure of the link and the failure
    of the copy. *)
Theorem create_app_symlink_outcome (env : environment) (source_path : path)
    (category app_name : string) (w : world) :
  match Organizer.create_app_symlink env source_path category app_name w with
  | (Ok true, w') =>
      lookup_entry (disk w') category app_name = Some (Symlink source_path) \/
      lookup_entry (disk w') category app_name = Some (Tree source_path true)
  | (Ok false, w') =>
      exists e copy_error,
        errors w' = errors w ++ [ErrorCreatingSymlink e; ErrorCopyingFolder copy_error]
  | (Raise _, _) => False
  end.
Proof.
  destruct w as [d errs].
  unfold Organizer.create_app_symlink, io_try, io_bind, target_exists, rmtree,
    symlink_to, copytree, logger_error, io_ret, lookup_entry, set_disk.
  cbn [disk errors].
  destruct (env_symlink_permitted env), (env_copy env source_path);
  (destruct (d !! category) as [dir|] eqn:Ed;
   [destruct (dir !! app_name) as [[t|src whole|]|] eqn:En;
    [destruct (env_exists env t)| | |]|]);
  repeat (first [rewrite Ed | rewrite En | rewrite lookup_alter_eq
                | rewrite lookup_delete_eq | rewrite lookup_insert_eq
                | rewrite <- app_assoc | progress cbn]);
  eauto.
Qed.

(** X5: on a target that already holds a symbolic link, be it the link
    an earlier run made to the same source, [create_app_symlink] changes
    nothing, logs two errors and returns [False]. *)
Theorem create_app_symlink_on_existing_link (env : environment)
    (source_path target : path) (category app_name : string) (w : world) :
  lookup_entry (disk w) category app_name = Some (Symlink target) ->
  exists e copy_error,
    Organizer.create_app_symlink env source_path category app_name w
    = (Ok false,
       {| disk := disk w;
          errors := errors w ++ [ErrorCreatingSymlink e;
                                 ErrorCopyingFolder copy_error] |}).
Proof.
  destruct w as [d errs].
  unfold Organizer.create_app_symlink, io_try, io_bind, target_exists, rmtree,
    symlink_to, copytree, logger_error, io_ret, lookup_entry, set_disk.
  cbn [disk errors].
  destruct (d !! category) as [dir|] eqn:Ed; [|discriminate].
  intros En. rewrite En.
  destruct (env_symlink_permitted env), (env_copy env source_path),
    (env_exists env target);
  repeat (first [rewrite Ed | rewrite En | rewrite <- app_assoc | progress cbn]);
  eauto.
Qed.

Lemma create_app_symlink_on_existing_link_witness :
  exists e copy_error,
    Organizer.create_app_symlink sample_env ["repo"; "tools"]
      "3-Machine-Learning" "tools" linked_world
    = (Ok false,
       {| disk := disk linked_world;
          errors := errors linked_world ++ [ErrorCreatingSymlink e;
                                            ErrorCopyingFolder copy_error] |}).
Proof.
  apply (create_app_symlink_on_existing_link sample_env ["repo"; "tools"]
           ["repo"; "tools"] "3-Machine-Learning" "tools" linked_world).
  vm_compute. reflexivity.
Defined.

(** ** The catalogue and its users *)

Lemma determine_category_in_tags (app_name app_type : string) :
  In (determine_category app_name app_type) category_tags.
Proof.
  unfold determine_category.
  repeat (match goal with
          | |- context [PyStr.any_in ?k ?s] =>
              destruct (PyStr.any_in k s); [simpl; tauto|]
          end).
  destruct (type_to_category !! app_type) as [tag|] eqn:E; simpl.
  - now apply type_to_category_tag in E.
  - tauto.
Qed.

Lemma detect_app_type_in_types (file_path : path) :
  In (detect_app_type file_path) runtime_types.
Proof.
  unfold runtime_types. apply in_or_app.
  destruct (detect_app_type_earliest file_path)
    as [->|(before & inds & after & E & _)]; [right; now left|left].
  rewrite E, map_app. apply in_or_app. right. now left.
Qed.

Lemma get_folder_size_nonneg (fs : filesystem) (folder_path : path) :
  (0 <= get_folder_size fs folder_path)%Z.
Proof.
  unfold get_folder_size.
  destruct (fs_rglob fs folder_path) as [files|e]; simpl; [|lia].
  pose proof (sum_file_sizes_spec fs files) as H.
  destruct (sum_file_sizes fs files) as [z|e]; simpl; [|lia].
  destruct H as [_ ->]. apply total_nonneg.
Qed.

Lemma build_app_info_ok (fs : filesystem) (app_name : string)
    (file_path : path) :
  match build_app_info fs app_name file_path with
  | Ok a =>
      probes_ok fs file_path = true /\
      ai_name a = app_name /\ ai_file_path a = file_path /\
      ai_path a = parent file_path /\
      ai_type a = detect_app_type file_path /\
      ai_category a = determine_category app_name (detect_app_type file_path) /\
      ai_size a = get_folder_size fs (parent file_path)
  | Raise _ => probes_ok fs file_path = false
  end.
Proof.
  unfold build_app_info, probes_ok.
  destruct (has_requirements_file fs (parent file_path)); simpl; [|reflexivity].
  destruct (has_readme_file fs (parent file_path)); simpl; [|reflexivity].
  repeat split.
Qed.

Section Collect.

Variable fs : filesystem.
Variable create : path -> option app_info.
Variable choose : path -> string.

(** The record constructor is [build_app_info] on a name it chooses. *)
Hypothesis create_spec : forall file_path,
  create file_path =
    match build_app_info fs (choose file_path) file_path with
    | Ok app => Some app
    | Raise _ => None
    end.

Lemma create_some file_path a :
  create file_path = Some a ->
  probes_ok fs file_path = true /\ ai_file_path a = file_path /\
  ai_path a = parent file_path /\
  ai_type a = detect_app_type file_path /\
  ai_category a = determine_category (ai_name a) (ai_type a) /\
  ai_size a = get_folder_size fs (ai_path a).
Proof.
  rewrite create_spec. pose proof (build_app_info_ok fs (choose file_path) file_path) as H.
  destruct (build_app_info fs (choose file_path) file_path) as [b|e]; [|discriminate].
  intros [= <-]. destruct H as (Hp & Hn & Hf & Hpa & Ht & Hc & Hs).
  rewrite Hn, Ht, Hpa. repeat split; assumption || reflexivity.
Qed.

Lemma create_none file_path :
  create file_path = None -> probes_ok fs file_path = false.
Proof.
  rewrite create_spec. pose proof (build_app_info_ok fs (choose file_path) file_path) as H.
  now destruct (build_app_info fs (choose file_path) file_path).
Qed.

Lemma collect_apps_records (files : list path) :
  Forall (record_ok fs files) (collect_apps fs create files).
Proof.
  assert (G : forall l, incl l files ->
                Forall (record_ok fs files) (collect_apps fs create l)).
  { induction l as [|f rest IH]; intros Hincl; cbn [collect_apps]; [constructor|].
    assert (Hrest : incl rest files) by (intros x Hx; apply Hincl; now right).
    destruct (fs_is_file fs f) eqn:Hfile; cbn [andb]; [|now apply IH].
    destruct (is_candidate_suffix (suffix f)) eqn:Hsfx; [|now apply IH].
    destruct (create f) as [a|] eqn:Hc; [|now apply IH].
    constructor; [|now apply IH].
    apply create_some in Hc as (_ & Hf & Hpa & Ht & Hcat & Hs).
    unfold record_ok. rewrite Hf. repeat split; auto.
    - apply Hincl. now left.
    - rewrite Ht. apply detect_app_type_in_types.
    - rewrite Hcat. apply determine_category_in_tags.
    - rewrite Hs. apply get_folder_size_nonneg. }
  apply G, incl_refl.
Qed.

Lemma collect_apps_files (files : list path) :
  map ai_file_path (collect_apps fs create files)
  = List.filter (makes_record fs) files.
Proof.
  induction files as [|f rest IH]; [reflexivity|].
  cbn [collect_apps List.filter]. unfold makes_record at 1.
  destruct (fs_is_file fs f); cbn [andb]; [|exact IH].
  destruct (is_candidate_suffix (suffix f)); cbn [andb]; [|exact IH].
  destruct (create f) as [a|] eqn:Hc.
  - pose proof (create_some f a Hc) as (-> & <- & _). cbn. now rewrite IH.
  - now rewrite (create_none f Hc).
Qed.

End Collect.

Lemma Forall_sorted_by_name (P : app_info -> Prop) (apps : list app_info) :
  Forall P apps -> Forall P (sorted_by_name apps).
Proof.
  intros H. rewrite List.Forall_forall in *. intros a Ha. apply H.
  eapply Permutation_in; [symmetry; apply sorted_by_name_perm|exact Ha].
Qed.

Lemma scan_records_ok (fs : filesystem) (repo_path : path) :
  match ColabAppStoreCore.scan_repository_for_apps fs repo_path with
  | Ok apps => Forall (record_ok fs (listed fs repo_path)) apps
  | Raise _ => True
  end /\
  match AppUtils.scan_repository_for_apps fs repo_path with
  | Ok apps => Forall (record_ok fs (listed fs repo_path)) apps
  | Raise _ => True
  end.
Proof.
  unfold ColabAppStoreCore.scan_repository_for_apps,
    AppUtils.scan_repository_for_apps, listed.
  destruct (fs_exists fs repo_path) as [[|]|e]; simpl; auto.
  destruct (fs_rglob fs repo_path) as [files|e]; simpl; auto.
  split; apply Forall_sorted_by_name.
  - apply (collect_apps_records fs _
             (fun f => if negb (String.eqb (name (parent f)) (name repo_path))
                       then name (parent f) else stem f)).
    reflexivity.
  - apply (collect_apps_records fs _
             (fun f => if negb (String.eqb (name (parent f)) (name (parent f)))
                       then name (parent f) else stem f)).
    reflexivity.
Qed.

(** X6: every record a scan returns was built for a regular file that
    [rglob] listed and whose extension is [.py] or [.ipynb]; its path is
    the directory of that file, its type the detected one (one of the nine
    types or [unknown]), its category the one determined from its name and
    type (one of the six tags), and its size the folder size, which is not
    negative.  This holds for both scanners. *)
Theorem scan_records_are_well_formed (fs : filesystem) (repo_path : path) :
  match ColabAppStoreCore.scan_repository_for_apps fs repo_path with
  | Ok apps => Forall (record_ok fs (listed fs repo_path)) apps
  | Raise _ => True
  end /\
  match AppUtils.scan_repository_for_apps fs repo_path with
  | Ok apps => Forall (record_ok fs (listed fs repo_path)) apps
  | Raise _ => True
  end.
Proof. apply scan_records_ok. Qed.



(** *** Stability of the sort *)

Lemma string_leb_refl (s : string) : String.leb s s = true.
Proof.
  unfold String.leb. pose proof (String.compare_antisym s s) as H.
  destruct (String.compare s s); try reflexivity; discriminate H.
Qed.

Lemma insert_by_name_filter (n : string) (a : app_info) (l : list app_info) :
  List.filter (has_name n) (insert_by_name a l)
  = List.filter (has_name n) (a :: l).
Proof.
  induction l as [|b l IH]; [reflexivity|].
  cbn [insert_by_name].
  destruct (String.leb (ai_name a) (ai_name b)) eqn:E; [reflexivity|].
  cbn [List.filter] in *. rewrite IH.
  destruct (has_name n a) eqn:Ha; [|reflexivity].
  destruct (has_name n b) eqn:Hb; [|reflexivity].
  unfold has_name in Ha, Hb. apply String.eqb_eq in Ha, Hb.
  rewrite Ha, <- Hb, string_leb_refl in E. discriminate E.
Qed.

Lemma sorted_by_name_stable (n : string) (apps : list app_info) :
  List.filter (has_name n) (sorted_by_name apps) = List.filter (has_name n) apps.
Proof.
  induction apps as [|a rest IH]; [reflexivity|].
  cbn [sorted_by_name]. rewrite insert_by_name_filter.
  cbn [List.filter]. now rewrite IH.
Qed.

Lemma sublist_List_filter {A} (f : A -> bool) (l : list A) :
  sublist (List.filter f l) l.
Proof.
  induction l as [|x l IH]; cbn; [constructor|].
  destruct (f x); now constructor.
Qed.

Lemma sublist_List_map {A B} (f : A -> B) (l1 l2 : list A) :
  sublist l1 l2 -> sublist (map f l1) (map f l2).
Proof. induction 1; cbn; now constructor. Qed.

(** X8: the records of a catalogue that bear the same name come in the
    order in which [rglob] listed their files (the sort is stable): their
    file paths, in catalogue order, form a subsequence of the listing. *)
Theorem scan_keeps_listing_order_among_equal_names (fs : filesystem)
    (repo_path : path) (n : string) :
  match ColabAppStoreCore.scan_repository_for_apps fs repo_path with
  | Ok apps =>
      sublist (map ai_file_path (List.filter (has_name n) apps))
              (listed fs repo_path)
  | Raise _ => True
  end /\
  match AppUtils.scan_repository_for_apps fs repo_path with
  | Ok apps =>
      sublist (map ai_file_path (List.filter (has_name n) apps))
              (listed fs repo_path)
  | Raise _ => True
  end.
Proof.
  unfold ColabAppStoreCore.scan_repository_for_apps,
    AppUtils.scan_repository_for_apps, listed.
  destruct (fs_exists fs repo_path) as [[|]|e]; simpl; auto.
  - destruct (fs_rglob fs repo_path) as [files|e]; simpl; auto.
    split; rewrite sorted_by_name_stable.
    + etransitivity; [apply sublist_List_map, sublist_List_filter|].
      erewrite (collect_apps_files fs _
                  (fun f => if negb (String.eqb (name (parent f)) (name repo_path))
                            then name (parent f) else stem f));
        [apply sublist_List_filter|reflexivity].
    + etransitivity; [apply sublist_List_map, sublist_List_filter|].
      erewrite (collect_apps_files fs _
                  (fun f => if negb (String.eqb (name (parent f))
                                       (name (parent f)))
                            then name (parent f) else stem f));
        [apply sublist_List_filter|reflexivity].
  - split; apply sublist_nil_l.
Qed.

(** *** Categories partition the catalogue *)

Lemma filter_split_perm {A} (f g : A -> bool) (l : list A) :
  (forall a, f a = true -> g a = false) ->
  Permutation (List.filter f l ++ List.filter g l)
              (List.filter (fun a => f a || g a) l).
Proof.
  intros Hfg. induction l as [|a l IH]; cbn; [constructor|].
  destruct (f a) eqn:Hf; cbn.
  - rewrite (Hfg a Hf). now constructor.
  - destruct (g a); [|exact IH].
    rewrite <- Permutation_middle. now constructor.
Qed.

Lemma placements_apps (categories : list (string * list string))
    (apps : list app_info) :
  map snd (placements categories apps)
  = flat_map (fun row => category_apps apps (fst row)) categories.
Proof.
  unfold placements. induction categories as [|[c subs] rest IH]; [reflexivity|].
  cbn [flat_map fst]. rewrite map_app, IH. f_equal.
  rewrite map_map. cbn. apply map_id.
Qed.

Lemma placements_partition (categories : list (string * list string))
    (apps : list app_info) :
  List.NoDup (map fst categories) ->
  Permutation (map snd (placements categories apps))
    (List.filter (fun a => existsb (String.eqb (ai_category a)) (map fst categories))
                 apps).
Proof.
  rewrite placements_apps.
  induction categories as [|[c subs] rest IH]; intros Hnd.
  - cbn. rewrite filter_none; [constructor|reflexivity].
  - cbn [flat_map map fst existsb]. inversion Hnd as [|? ? Hc Hrest]; subst.
    rewrite (IH Hrest). unfold category_apps.
    apply filter_split_perm. intros a Ha. apply String.eqb_eq in Ha.
    apply existsb_false. intros k Hk.
    apply String.eqb_neq. intros E. apply Hc. congruence.
Qed.

Lemma categories_nodup : List.NoDup (map fst Organizer.categories).
Proof.
  cbn. repeat (apply List.NoDup_cons; [cbn; intuition discriminate|]).
  apply List.NoDup_nil.
Qed.


Lemma length_flat_map_sum {A B} (f : A -> list B) (l : list A) :
  List.length (flat_map f l) = list_sum (map (fun x => List.length (f x)) l).
Proof.
  induction l as [|x l IH]; [reflexivity|].
  cbn. now rewrite length_app, IH.
Qed.

Lemma filter_all {A} (f : A -> bool) (l : list A) :
  Forall (fun a => f a = true) l -> List.filter f l = l.
Proof.
  induction 1 as [|a l Ha _ IH]; [reflexivity|]. cbn. now rewrite Ha, IH.
Qed.

Lemma category_counts_sum (apps : list app_info) :
  list_sum (category_counts apps) = List.length (List.filter in_categories apps).
Proof.
  unfold in_categories.
  rewrite <- (Permutation_length
                (placements_partition Organizer.categories apps categories_nodup)).
  rewrite placements_apps, length_flat_map_sum. reflexivity.
Qed.

Lemma record_ok_in_categories fs files a :
  record_ok fs files a -> in_categories a = true.
Proof.
  intros (_ & _ & _ & _ & _ & _ & _ & Hcat & _).
  unfold in_categories. apply existsb_exists. exists (ai_category a).
  split; [exact Hcat|apply String.eqb_refl].
Qed.

(** X10: the per-category counts of the category summary add up to the
    number of apps whose category is one of the six; for a catalogue that
    a scan returned they add up to the number of apps found. *)
Theorem category_summary_counts_every_app (fs : filesystem) (repo_path : path)
    (apps : list app_info) :
  list_sum (category_counts apps) = List.length (List.filter in_categories apps) /\
  match ColabAppStoreCore.scan_repository_for_apps fs repo_path with
  | Ok found => list_sum (category_counts found) = List.length found
  | Raise _ => True
  end.
Proof.
  split; [apply category_counts_sum|].
  pose proof (scan_records_ok fs repo_path) as [H _].
  destruct (ColabAppStoreCore.scan_repository_for_apps fs repo_path)
    as [found|e]; [|exact I].
  rewrite category_counts_sum. f_equal. apply filter_all.
  eapply Forall_impl; [exact H|]. intros a. apply record_ok_in_categories.
Qed.

(** ** Heuristic classifier, further *)

(** X11: a file whose name contains [streamlit], in whatever case, is a
    streamlit app, whatever else the name contains and whatever its
    extension. *)
Theorem streamlit_in_name_wins (file_path : path) :
  PyStr.contains "streamlit" (PyStr.lower (name file_path)) = true ->
  detect_app_type file_path = "streamlit".
Proof.
  intros H. unfold detect_app_type, app_indicators.
  cbn [first_hit existsb]. unfold indicator_hits at 1. now rewrite H.
Qed.

Lemma streamlit_in_name_wins_witness :
  detect_app_type ["repo"; "My_Streamlit_Flask_Demo.ipynb"] = "streamlit".
Proof.
  apply (streamlit_in_name_wins ["repo"; "My_Streamlit_Flask_Demo.ipynb"]).
  vm_compute. reflexivity.
Defined.

Lemma append_cons (c : ascii) (a b : string) :
  String c a +:+ b = String c (a +:+ b).
Proof. reflexivity. Qed.

Lemma append_empty_r (a : string) : a +:+ "" = a.
Proof.
  induction a as [|c a IH]; [reflexivity|]. now rewrite append_cons, IH.
Qed.

Lemma substring_whole (s : string) : String.substring 0 (String.length s) s = s.
Proof. induction s as [|c s IH]; [reflexivity|]. cbn. now rewrite IH. Qed.

Lemma substring_split (s : string) : forall i,
  (i <= String.length s)%nat ->
  s = String.substring 0 i s +:+ String.substring i (String.length s - i) s.
Proof.
  induction s as [|c s IH]; intros i Hi.
  - destruct i; [reflexivity|cbn in Hi; lia].
  - destruct i as [|i].
    + cbn [String.substring]. rewrite Nat.sub_0_r.
      change (String.length (String c s)) with (S (String.length s)).
      cbn [String.substring]. now rewrite substring_whole.
    + cbn in Hi. cbn [String.substring String.length Nat.sub].
      rewrite append_cons. f_equal. apply IH. lia.
Qed.

Lemma lower_append (a b : string) :
  PyStr.lower (a +:+ b) = PyStr.lower a +:+ PyStr.lower b.
Proof.
  induction a as [|c a IH]; [reflexivity|].
  rewrite append_cons. cbn [PyStr.lower]. now rewrite append_cons, IH.
Qed.

Lemma startswith_refl (s : string) : PyStr.startswith s s = true.
Proof.
  induction s as [|c s IH]; [reflexivity|]. cbn. now rewrite Ascii.eqb_refl.
Qed.

Lemma contains_empty (s : string) : PyStr.contains "" s = true.
Proof. now destruct s. Qed.

Lemma contains_at_end (pre x : string) : PyStr.contains x (pre +:+ x) = true.
Proof.
  induction pre as [|c pre IH].
  - change ("" +:+ x) with x. destruct x as [|d x]; [reflexivity|].
    cbn [PyStr.contains]. now rewrite startswith_refl.
  - rewrite append_cons. cbn [PyStr.contains]. rewrite IH. apply orb_true_r.
Qed.

(** The name ends with the suffix. *)
Lemma name_ends_with_suffix (p : path) :
  exists pre, name p = pre +:+ suffix p.
Proof.
  unfold suffix, split_point.
  destruct (PyStr.rfind_dot (name p)) as [i|].
  - destruct ((0 <? i)%nat && (i <? String.length (name p) - 1)%nat) eqn:E.
    + exists (String.substring 0 i (name p)). apply substring_split.
      apply andb_true_iff in E as [_ E]. apply Nat.ltb_lt in E. lia.
    + exists (name p). now rewrite append_empty_r.
  - exists (name p). now rewrite append_empty_r.
Qed.

(** For an indicator written in lower case the comparison with the suffix
    adds nothing to the substring test. *)
Lemma indicator_hits_by_name (p : path) (indicator : string) :
  PyStr.lower indicator = indicator ->
  indicator_hits (PyStr.lower (name p)) (suffix p) indicator
  = PyStr.contains indicator (PyStr.lower (name p)).
Proof.
  intros Hl. unfold indicator_hits.
  destruct (PyStr.contains indicator (PyStr.lower (name p))) eqn:Hc;
    [reflexivity|].
  cbn [orb]. apply not_true_is_false. intros E. apply String.eqb_eq in E.
  destruct (name_ends_with_suffix p) as [pre Hn].
  rewrite Hn, lower_append, <- E, Hl, contains_at_end in Hc. discriminate Hc.
Qed.

Lemma first_hit_by_name (p : path) (table : list (string * list string)) :
  all_lower_case table = true ->
  first_hit (PyStr.lower (name p)) (suffix p) table
  = first_hit (PyStr.lower (name p)) "" table.
Proof.
  induction table as [|[t inds] rest IH]; [reflexivity|].
  cbn [all_lower_case forallb snd]. intros H.
  apply andb_true_iff in H as [Hrow Hrest].
  cbn [first_hit]. rewrite (IH Hrest).
  assert (E : existsb (indicator_hits (PyStr.lower (name p)) (suffix p)) inds
              = existsb (indicator_hits (PyStr.lower (name p)) "") inds);
    [|now rewrite E].
  clear IH Hrest. induction inds as [|ind inds IHi]; [reflexivity|].
  cbn [forallb] in Hrow. apply andb_true_iff in Hrow as [Hind Hinds].
  apply String.eqb_eq in Hind.
  cbn [existsb]. rewrite (IHi Hinds). f_equal.
  rewrite (indicator_hits_by_name p ind Hind).
  unfold indicator_hits.
  destruct (PyStr.contains ind (PyStr.lower (name p))) eqn:Hc; [reflexivity|].
  cbn [orb]. symmetry. apply not_true_is_false. intros E.
  apply String.eqb_eq in E. subst ind. rewrite contains_empty in Hc.
  discriminate Hc.
Qed.

(** X12: the detected type depends on the file name only, and not on its
    case: two paths whose names agree up to the case of their letters get
    the same type (the comparison of the indicator with the extension,
    which is case sensitive, never decides). *)
Theorem detect_app_type_ignores_case (p q : path) :
  PyStr.lower (name p) = PyStr.lower (name q) ->
  detect_app_type p = detect_app_type q.
Proof.
  intros H. unfold detect_app_type.
  rewrite (first_hit_by_name p), (first_hit_by_name q) by reflexivity.
  now rewrite H.
Qed.

Lemma detect_app_type_ignores_case_witness :
  detect_app_type ["repo"; "Model.IPYNB"] = detect_app_type ["model.ipynb"].
Proof.
  apply (detect_app_type_ignores_case ["repo"; "Model.IPYNB"] ["model.ipynb"]).
  vm_compute. reflexivity.
Defined.

(** ** Dependency installer and readme viewer *)

(** X13: [setup.py] counts as a requirements file for the flag of the
    record but not for the installer: in a directory whose only manifest
    is [setup.py], [has_requirements_file] answers [True] and
    [install_app_dependencies] reports that no requirements file was
    found, without running [pip]. *)
Theorem installer_ignores_setup_py (fs : filesystem)
    (pip_install : path -> result (string * string)) (str : string -> string)
    (app_path : path) :
  fs_exists fs (join app_path "requirements.txt") = Ok false ->
  fs_exists fs (join app_path "environment.yml") = Ok false ->
  fs_exists fs (join app_path "pyproject.toml") = Ok false ->
  fs_exists fs (join app_path "setup.py") = Ok true ->
  has_requirements_file fs app_path = Ok true /\
  install_app_dependencies fs pip_install str app_path
    = "No requirements file found.\n".
Proof.
  intros H1 H2 H3 H4.
  unfold has_requirements_file, install_app_dependencies.
  cbn [any_exists first_existing].
  rewrite H1, H2, H3, H4. split; reflexivity.
Qed.

Lemma installer_ignores_setup_py_witness :
  has_requirements_file setup_only_fs ["pkg"] = Ok true /\
  install_app_dependencies setup_only_fs (fun _ => Raise "TimeoutExpired")
    (fun e => e) ["pkg"]
    = "No requirements file found.\n".
Proof.
  apply (installer_ignores_setup_py setup_only_fs
           (fun _ => Raise "TimeoutExpired") (fun e => e) ["pkg"]);
    vm_compute; reflexivity.
Defined.

(** X14: [pip] is run for [requirements.txt] only: when that file does not
    exist, what [install_app_dependencies] returns does not depend on
    what [pip] would do, whichever other manifests exist. *)
Theorem installer_runs_pip_for_requirements_txt_only (fs : filesystem)
    (pip1 pip2 : path -> result (string * string)) (str : string -> string)
    (app_path : path) :
  fs_exists fs (join app_path "requirements.txt") = Ok false ->
  install_app_dependencies fs pip1 str app_path
  = install_app_dependencies fs pip2 str app_path.
Proof.
  intros H. unfold install_app_dependencies.
  cbn [first_existing]. rewrite H. cbn [bind].
  destruct (fs_exists fs (join app_path "environment.yml")) as [[|]|e];
    cbn [bind]; rewrite ?name_join; try reflexivity.
  destruct (fs_exists fs (join app_path "pyproject.toml")) as [[|]|e];
    cbn [bind]; rewrite ?name_join; reflexivity.
Qed.

Lemma installer_runs_pip_for_requirements_txt_only_witness :
  install_app_dependencies setup_only_fs (fun _ => Raise "TimeoutExpired")
    (fun e => e) ["pkg"]
  = install_app_dependencies setup_only_fs (fun _ => Ok ("done", ""))
      (fun e => e) ["pkg"].
Proof.
  apply (installer_runs_pip_for_requirements_txt_only setup_only_fs
           (fun _ => Raise "TimeoutExpired") (fun _ => Ok ("done", ""))
           (fun e => e) ["pkg"]).
  vm_compute. reflexivity.
Defined.

(** The search of the viewer and the presence check walk the same names
    in the same order. *)
Lemma first_existing_any_exists (fs : filesystem) (app_path : path)
    (names : list string) :
  match first_existing fs app_path names with
  | Ok (Some _) => any_exists fs app_path names = Ok true
  | Ok None => any_exists fs app_path names = Ok false
  | Raise e => any_exists fs app_path names = Raise e
  end.
Proof.
  induction names as [|n rest IH]; [reflexivity|].
  cbn [first_existing any_exists].
  destruct (fs_exists fs (join app_path n)) as [[|]|e]; cbn [bind];
    [reflexivity|exact IH|reflexivity].
Qed.

(** X15: the readme flag of a record and the readme viewer agree.  When
    [has_readme_file] answers [False] the viewer says that no README was
    found; when it answers [True] the viewer never says so (it shows the
    content, or the error of the read); when it raises, the viewer shows
    that error. *)
Theorem readme_flag_matches_viewer (fs : filesystem)
    (read_text : path -> result string) (str : string -> string)
    (app_path : path) :
  match has_readme_file fs app_path with
  | Ok false =>
      read_app_readme fs read_text str app_path = "No README file found.\n"
  | Ok true =>
      read_app_readme fs read_text str app_path <> "No README file found.\n"
  | Raise e =>
      read_app_readme fs read_text str app_path
      = "Error reading README: " +:+ str e +:+ "\n"
  end.
Proof.
  unfold has_readme_file, read_app_readme.
  pose proof (first_existing_any_exists fs app_path
                ["README.md"; "README.rst"; "README.txt"; "readme.md"]) as H.
  destruct (first_existing fs app_path _) as [[f|]|e]; rewrite H; cbn [bind catch].
  - destruct (read_text f) as [content|e]; cbn [bind catch];
      rewrite append_cons; discriminate.
  - reflexivity.
  - reflexivity.
Qed.

(** ** Selectors *)

Lemma filter_comm {A} (f g : A -> bool) (l : list A) :
  List.filter f (List.filter g l) = List.filter g (List.filter f l).
Proof.
  induction l as [|x l IH]; [reflexivity|]. cbn.
  destruct (f x) eqn:Hf, (g x) eqn:Hg; cbn; rewrite ?Hf, ?Hg, IH; reflexivity.
Qed.

(** X16: the selector of the Gradio interface and the selector of the
    Panel dashboard offer the same names for the same catalogue, search
    text, categories and types, although they apply the category filter
    and the type filter in opposite orders. *)
Theorem gradio_and_panel_selectors_agree (apps : list app_info)
    (search_text : string) (selected_categories selected_types : list string)
    (value : option string) :
  fst (GradioUI.update_filters apps search_text selected_categories selected_types)
  = fst (PanelUI.update_app_selector_options apps search_text selected_types
           selected_categories value).
Proof.
  unfold GradioUI.update_filters, PanelUI.update_app_selector_options.
  cbn [fst]. f_equal.
  destruct selected_categories, selected_types; try reflexivity.
  apply filter_comm.
Qed.

(** X17: the names the Gradio selector offers are names of the catalogue,
    in catalogue order (a subsequence of its names), and its value is the
    first of them; with an empty search text and nothing selected in the
    two filters it offers every name. *)
Theorem gradio_selector_offers_catalogue_names (apps : list app_info)
    (search_text : string) (selected_categories selected_types : list string) :
  sublist (fst (GradioUI.update_filters apps search_text selected_categories
                  selected_types))
          (map ai_name apps) /\
  snd (GradioUI.update_filters apps search_text selected_categories selected_types)
  = List.head (fst (GradioUI.update_filters apps search_text selected_categories
                      selected_types)) /\
  GradioUI.update_filters apps "" [] []
  = (map ai_name apps, List.head (map ai_name apps)).
Proof.
  split; [|split; reflexivity].
  unfold GradioUI.update_filters. cbn [fst].
  apply sublist_List_map.
  assert (Hs : sublist (if truthy search_text then search_apps search_text apps
                        else apps) apps).
  { destruct (truthy search_text); [apply sublist_List_filter|reflexivity]. }
  destruct selected_categories, selected_types; repeat
    (first [exact Hs | etransitivity; [apply sublist_List_filter|]]).
Qed.

(** X18: after [update_app_selector_options] the value of the Panel
    selector is empty ([None] or the empty string), or one of the options
    now offered. *)
Theorem panel_selection_stays_valid (apps : list app_info)
    (search_text : string) (selected_types selected_categories : list string)
    (value : option string) :
  let updated :=
    PanelUI.update_app_selector_options apps search_text selected_types
      selected_categories value in
  snd updated = None \/ snd updated = Some "" \/
  exists v, snd updated = Some v /\ In v (fst updated).
Proof.
  unfold PanelUI.update_app_selector_options. cbn [fst snd].
  set (options := map ai_name _).
  destruct value as [v|]; [|now left].
  destruct (truthy v) eqn:Ht; cbn [andb].
  - destruct (member v options) eqn:Hm; cbn [negb].
    + right. right. exists v. split; [reflexivity|].
      unfold member in Hm. apply existsb_exists in Hm as (x & Hx & E).
      apply String.eqb_eq in E. now subst x.
    + destruct options as [|o rest]; [now left|].
      right. right. exists o. split; [reflexivity|now left].
  - right. left. unfold truthy in Ht. apply negb_false_iff, String.eqb_eq in Ht.
    now subst v.
Qed.

Lemma find_head_filter {A} (f : A -> bool) (l : list A) :
  List.find f l = List.head (List.filter f l).
Proof.
  induction l as [|x l IH]; [reflexivity|]. cbn. now destruct (f x).
Qed.

(** X19: selecting a name that a record of the catalogue bears always
    finds a record: one with that name, and the first such record in
    catalogue order.  A record whose name an earlier record bears is
    never the one selected. *)
Theorem selection_finds_first_record_of_name (apps : list app_info)
    (a : app_info) :
  In a apps ->
  exists b,
    GradioUI.selected_app apps (ai_name a) = Some b /\
    ai_name b = ai_name a /\
    List.head (List.filter (has_name (ai_name a)) apps) = Some b.
Proof.
  intros Hin. unfold GradioUI.selected_app.
  destruct (List.find (fun app => String.eqb (ai_name app) (ai_name a)) apps)
    as [b|] eqn:E.
  - exists b. split; [reflexivity|]. split.
    + apply find_some in E as [_ E]. now apply String.eqb_eq in E.
    + rewrite find_head_filter in E. exact E.
  - exfalso. apply (find_none _ _ E a) in Hin.
    rewrite String.eqb_refl in Hin. discriminate Hin.
Qed.

Lemma selection_finds_first_record_of_name_witness :
  exists b,
    GradioUI.selected_app
      [ {| ai_name := "tools"; ai_path := ["repo"; "tools"];
           ai_file_path := ["repo"; "tools"; "a.py"]; ai_type := "unknown";
           ai_category := "3-Machine-Learning"; ai_size := 0;
           ai_has_requirements := false; ai_has_readme := false |};
        {| ai_name := "tools"; ai_path := ["repo"; "tools"];
           ai_file_path := ["repo"; "tools"; "b.py"]; ai_type := "unknown";
           ai_category := "3-Machine-Learning"; ai_size := 0;
           ai_has_requirements := false; ai_has_readme := false |} ]
      "tools" = Some b /\
    ai_name b = "tools" /\
    List.head
      (List.filter (has_name "tools")
         [ {| ai_name := "tools"; ai_path := ["repo"; "tools"];
              ai_file_path := ["repo"; "tools"; "a.py"]; ai_type := "unknown";
              ai_category := "3-Machine-Learning"; ai_size := 0;
              ai_has_requirements := false; ai_has_readme := false |};
           {| ai_name := "tools"; ai_path := ["repo"; "tools"];
              ai_file_path := ["repo"; "tools"; "b.py"]; ai_type := "unknown";
              ai_category := "3-Machine-Learning"; ai_size := 0;
              ai_has_requirements := false; ai_has_readme := false |} ])
    = Some b.
Proof.
  apply (selection_finds_first_record_of_name _
           {| ai_name := "tools"; ai_path := ["repo"; "tools"];
              ai_file_path := ["repo"; "tools"; "b.py"]; ai_type := "unknown";
              ai_category := "3-Machine-Learning"; ai_size := 0;
              ai_has_requirements := false; ai_has_readme := false |}).
  right. left. reflexivity.
Defined.

(** ** Sizes below one kilobyte *)



(** ** Records of one directory *)

(** X21: the class gives the same name and the same path to the records
    of two files of one directory whose name is not that of the root; the
    catalogue then holds two records that the name cannot tell apart. *)
Theorem core_records_of_one_directory_share_name (fs : filesystem)
    (repo_path file1 file2 : path) (a1 a2 : app_info) :
  parent file1 = parent file2 ->
  name (parent file1) <> name repo_path ->
  ColabAppStoreCore.create_app_info fs repo_path file1 = Some a1 ->
  ColabAppStoreCore.create_app_info fs repo_path file2 = Some a2 ->
  ai_name a1 = ai_name a2 /\ ai_name a1 = name (parent file1) /\
  ai_path a1 = ai_path a2.
Proof.
  intros Hp Hn H1 H2.
  pose proof (core_create_app_info_name fs repo_path file1 a1 H1) as N1.
  pose proof (core_create_app_info_name fs repo_path file2 a2 H2) as N2.
  rewrite <- Hp in N2.
  apply String.eqb_neq in Hn. rewrite Hn in N1, N2.
  repeat split; [congruence|exact N1|].
  unfold ColabAppStoreCore.create_app_info in H1, H2.
  pose proof (build_app_info_ok fs
                (if negb (String.eqb (name (parent file1)) (name repo_path))
                 then name (parent file1) else stem file1) file1) as B1.
  pose proof (build_app_info_ok fs
                (if negb (String.eqb (name (parent file2)) (name repo_path))
                 then name (parent file2) else stem file2) file2) as B2.
  destruct (build_app_info fs _ file1) as [b1|]; [|discriminate].
  destruct (build_app_info fs _ file2) as [b2|]; [|discriminate].
  injection H1 as <-. injection H2 as <-.
  destruct B1 as (_ & _ & _ & -> & _). destruct B2 as (_ & _ & _ & -> & _).
  exact Hp.
Qed.

Lemma core_records_of_one_directory_share_name_witness :
  exists a1 a2,
    ColabAppStoreCore.create_app_info sample_fs ["repo"]
      ["repo"; "tools"; "run.py"] = Some a1 /\
    ColabAppStoreCore.create_app_info sample_fs ["repo"]
      ["repo"; "tools"; "train.py"] = Some a2 /\
    ai_name a1 = ai_name a2 /\ ai_name a1 = name (parent ["repo"; "tools"; "run.py"]) /\
    ai_path a1 = ai_path a2.
Proof.
  destruct (ColabAppStoreCore.create_app_info sample_fs ["repo"]
              ["repo"; "tools"; "run.py"]) as [a1|] eqn:E1;
    [|vm_compute in E1; discriminate E1].
  destruct (ColabAppStoreCore.create_app_info sample_fs ["repo"]
              ["repo"; "tools"; "train.py"]) as [a2|] eqn:E2;
    [|vm_compute in E2; discriminate E2].
  exists a1, a2. split; [reflexivity|]. split; [reflexivity|].
  apply (core_records_of_one_directory_share_name sample_fs ["repo"]
           ["repo"; "tools"; "run.py"] ["repo"; "tools"; "train.py"] a1 a2);
    [reflexivity|vm_compute; discriminate|exact E1|exact E2].
Defined.
